(** * The single-instance convergence contract of
      [upup/pkg/fi/cloudup/awstasks/instance.go]

    A shallow embedding of the [Instance] task: [Find] (state discovery),
    [CheckChanges] (change validation), [RenderAWS] (live provisioning) and
    [TerraformLink] (code generation), followed by the properties the
    specification states about them.

    Go pointers that may be nil are [option]s; a nil dereference or an index
    out of range is the outcome [Panic]; a returned [error] is the outcome
    [Fail]. The methods run in a small state monad whose state holds the
    desired descriptor the method writes to, the provider calls made so far
    and the glog output.

    The elements of a slice of pointers ([i.SecurityGroups],
    [i.NetworkInterfaces], [e.SecurityGroups], [response.Instances]) are
    taken to be non-nil, as the SDK and the task loader produce them; the
    pointer fields of those elements are not. The method [Run] only hands
    the task to the driver ([fi.DefaultDeltaRunMethod]) and is left out. *)

From Stdlib Require Import ZArith Ascii String List Lia.
From Stdlib.Strings Require Import Byte.
From stdpp Require Import base option list strings gmap.

Local Open Scope Z_scope.

(** ** Errors, outcomes, and the log *)

(** [fmt.Errorf(format, args...)] is kept unrendered: the format string and
    its arguments. [CloudError] is an error value handed back by a provider
    call; [RequiredField] is [fi.RequiredField]. *)
Inductive error : Type :=
  | Errorf (format : string) (args : list fmtarg)
  | RequiredField (field : string)
  | CloudError (msg : string)
with fmtarg : Type :=
  | ArgString (s : string)
  | ArgInt (n : Z)
  | ArgError (err : error).

Inductive panic : Type :=
  | NilDereference
  | IndexOutOfRange.

Inductive Outcome (A : Type) : Type :=
  | Ret (a : A)
  | Fail (err : error)
  | Panic (p : panic).
Arguments Ret {A} a.
Arguments Fail {A} err.
Arguments Panic {A} p.

(** A call result [(value, err)]: the code reads [value] only when [err] is
    nil, so the pair is a sum. *)
Definition Result (A : Type) : Type := error + A.

Module glog.
Inductive Entry : Type :=
  | Warningf (format : string) (args : list fmtarg)
  | InfoV (level : Z) (format : string) (args : list fmtarg).
End glog.

(** ** package aws *)
Module aws.
Definition StringValue (v : option string) : string :=
  match v with
  | Some s => s
  | None => EmptyString
  end.

Definition String (s : string) : option string := Some s.
Definition Int64 (n : Z) : option Z := Some n.
End aws.

(** ** package strings, for a one-byte separator *)
Module strings.
(** [strings.Split(s, sep)] where [sep] is a single byte, as at its one
    call site: the pieces between the occurrences of [sep]. *)
Fixpoint Split (s : string) (sep : ascii) : list string :=
  match s with
  | EmptyString => [EmptyString]
  | String c s' =>
      if Ascii.eqb c sep then EmptyString :: Split s' sep
      else match Split s' sep with
           | t :: ts => String c t :: ts
           | [] => [String c EmptyString]
           end
  end.

Definition HasPrefix (s prefix : string) : bool := String.prefix prefix s.

(** [s[n:]] *)
Fixpoint slice_from (n : nat) (s : string) : string :=
  match n, s with
  | O, _ => s
  | S n', String _ s' => slice_from n' s'
  | S _, EmptyString => EmptyString
  end.

Definition TrimPrefix (s prefix : string) : string :=
  if HasPrefix s prefix then slice_from (String.length prefix) s else s.
End strings.

(** ** package ec2: the fields of the SDK structures the task reads or
    writes *)
Module ec2.
Record Tag := { Key : option string; Value : option string }.

Record Filter := { FilterName : option string; FilterValues : list (option string) }.

Record DescribeInstancesInput := { Filters : list Filter }.

Record GroupIdentifier := { GroupId : option string }.

Record InstanceNetworkInterfaceAssociation := { PublicIp : option string }.

Record InstanceNetworkInterface :=
  { Association : option InstanceNetworkInterfaceAssociation }.

Record IamInstanceProfile := { Arn : option string }.

Record Instance := {
  InstanceId : option string;
  PrivateIpAddress : option string;
  InstanceType : option string;
  ImageId : option string;
  Tags : list Tag;
  SubnetId : option string;
  KeyName : option string;
  SecurityGroups : list GroupIdentifier;
  NetworkInterfaces : list InstanceNetworkInterface;
  IamInstanceProfile_ : option IamInstanceProfile
}.

Record Reservation := { Instances : list Instance }.

Record DescribeInstancesOutput := { Reservations : list Reservation }.

Record DescribeInstanceAttributeInput :=
  { AttrInstanceId : option string; Attribute : option string }.

Record AttributeValue := { AttrValue : option string }.

Record DescribeInstanceAttributeOutput := { AttrUserData : option AttributeValue }.

Record Image := { ImageImageId : option string }.

Record InstanceNetworkInterfaceSpecification := {
  DeviceIndex : option Z;
  AssociatePublicIpAddress : option bool;
  SpecSubnetId : option string;
  SpecPrivateIpAddress : option string;
  Groups : list (option string)
}.

Record IamInstanceProfileSpecification := { ProfileName : option string }.

Record BlockDeviceMapping :=
  { DeviceName : option string; VirtualName : option string }.

Record RunInstancesInput := {
  ReqImageId : option string;
  ReqInstanceType : option string;
  MinCount : option Z;
  MaxCount : option Z;
  ReqKeyName : option string;
  ReqNetworkInterfaces : list InstanceNetworkInterfaceSpecification;
  BlockDeviceMappings : list BlockDeviceMapping;
  ReqUserData : option string;
  ReqIamInstanceProfile : option IamInstanceProfileSpecification
}.
End ec2.

(** ** package fi *)
Module fi.
(** A [fi.Resource] is observed only through [fi.ResourceAsBytes]: the
    bytes it renders to, or the error rendering gives. *)
Record Resource := { ResourceAsBytes : Result (list byte) }.

Definition NewBytesResource (b : list byte) : Resource :=
  {| ResourceAsBytes := inr b |}.
End fi.

(** ** package awsup: the provider capability *)
Module awsup.
Definition NewEC2Filter (name : string) (values : list string) : ec2.Filter :=
  {| ec2.FilterName := Some name; ec2.FilterValues := map Some values |}.

(** The [AWSCloud] interface, with the EC2 client's methods next to its
    own. Every method is called at most once per [Find] or [RenderAWS], so
    an answer that depends on the request alone loses no behaviour. *)
Record AWSCloud := {
  BuildFilters : option string -> list ec2.Filter;
  DescribeInstances :
    ec2.DescribeInstancesInput -> Result (option ec2.DescribeInstancesOutput);
  DescribeInstanceAttribute :
    ec2.DescribeInstanceAttributeInput ->
    Result (option ec2.DescribeInstanceAttributeOutput);
  ResolveImage : string -> Result (option ec2.Image);
  RunInstances : ec2.RunInstancesInput -> Result (option ec2.Reservation)
}.

Record AWSAPITarget := {
  Cloud : AWSCloud;
  AddAWSTags : string -> gmap string string -> option error
}.

(** One entry per call that reaches the provider. *)
Inductive ProviderCall : Type :=
  | CallDescribeInstances (request : ec2.DescribeInstancesInput)
  | CallDescribeInstanceAttribute (request : ec2.DescribeInstanceAttributeInput)
  | CallResolveImage (name : string)
  | CallRunInstances (request : ec2.RunInstancesInput)
  | CallAddAWSTags (id : string) (tags : gmap string string).
End awsup.

(** ** package terraform *)
Module terraform.
Record Literal := { LiteralValue : string }.
End terraform.

(** ** package awstasks: the task's data *)

(** The sibling task structures, with the one field of each that
    [instance.go] touches. *)
Record Subnet := { SubnetID : option string }.
Record SSHKey := { SSHKeyName : option string }.
Record SecurityGroup := { SecurityGroupID : option string }.
Record IAMInstanceProfile := { IAMInstanceProfileName : option string }.

Definition MaxUserDataSize : Z := 16384.

Record Instance := {
  ID : option string;
  UserData : option fi.Resource;
  Subnet_ : option Subnet;
  PrivateIPAddress : option string;
  Name : option string;
  Tags : gmap string string;
  ImageID : option string;
  InstanceType : option string;
  SSHKey_ : option SSHKey;
  SecurityGroups : list SecurityGroup;
  AssociatePublicIP : option bool;
  IAMInstanceProfile_ : option IAMInstanceProfile
}.

Definition CompareWithID (s : Instance) : option string := ID s.

(** [e.ID = id] *)
Definition set_ID (id : option string) (e : Instance) : Instance :=
  {| ID := id;
     UserData := UserData e;
     Subnet_ := Subnet_ e;
     PrivateIPAddress := PrivateIPAddress e;
     Name := Name e;
     Tags := Tags e;
     ImageID := ImageID e;
     InstanceType := InstanceType e;
     SSHKey_ := SSHKey_ e;
     SecurityGroups := SecurityGroups e;
     AssociatePublicIP := AssociatePublicIP e;
     IAMInstanceProfile_ := IAMInstanceProfile_ e |}.

(** [actual.ImageID = id] *)
Definition set_ImageID (id : option string) (e : Instance) : Instance :=
  {| ID := ID e;
     UserData := UserData e;
     Subnet_ := Subnet_ e;
     PrivateIPAddress := PrivateIPAddress e;
     Name := Name e;
     Tags := Tags e;
     ImageID := id;
     InstanceType := InstanceType e;
     SSHKey_ := SSHKey_ e;
     SecurityGroups := SecurityGroups e;
     AssociatePublicIP := AssociatePublicIP e;
     IAMInstanceProfile_ := IAMInstanceProfile_ e |}.

(** ** The state a method runs in *)

(** [desired] is the descriptor [e] the method was invoked on (a pointer in
    the source, so writes to it outlive the call, also when the call fails);
    [calls] are the provider calls so far, oldest first; [logged] is the glog
    output, oldest first. *)
Record Pass := {
  desired : Instance;
  calls : list awsup.ProviderCall;
  logged : list glog.Entry
}.

Definition M (A : Type) : Type := Pass -> Outcome A * Pass.

#[global] Instance M_ret : MRet M := fun A a s => (Ret a, s).

#[global] Instance M_bind : MBind M := fun A B k m s =>
  match m s with
  | (Ret a, s') => k a s'
  | (Fail err, s') => (Fail err, s')
  | (Panic p, s') => (Panic p, s')
  end.

Definition fail {A} (err : error) : M A := fun s => (Fail err, s).

Definition get_desired : M Instance := fun s => (Ret (desired s), s).

(** An assignment to a field of [e]. *)
Definition modify_desired (f : Instance -> Instance) : M unit := fun s =>
  (Ret tt, {| desired := f (desired s); calls := calls s; logged := logged s |}).

Definition record_call (c : awsup.ProviderCall) : M unit := fun s =>
  (Ret tt, {| desired := desired s; calls := calls s ++ [c]; logged := logged s |}).

Definition log (entry : glog.Entry) : M unit := fun s =>
  (Ret tt, {| desired := desired s; calls := calls s; logged := logged s ++ [entry] |}).

(** [*p], [p.field] on a pointer: nil panics. *)
Definition deref {A} (p : option A) : M A := fun s =>
  match p with
  | Some a => (Ret a, s)
  | None => (Panic NilDereference, s)
  end.

(** [l[i]] *)
Definition index {A} (l : list A) (i : nat) : M A := fun s =>
  match l !! i with
  | Some a => (Ret a, s)
  | None => (Panic IndexOutOfRange, s)
  end.

(** A provider call: it is noted in [calls], then answers. *)
Definition provider {A} (c : awsup.ProviderCall) (answer : A) : M A :=
  record_call c;; mret answer.

(** [c.Cloud.(awsup.AWSCloud)]: the context's cloud is an [AWSCloud]. *)
Record Context := { ContextCloud : awsup.AWSCloud }.

(** ** package awstasks: the task's methods *)
Section awstasks.

(** What [instance.go] uses from the rest of its package and from the Go
    library; none of it is defined in this file of the repository. *)
Variable findNameTag : list ec2.Tag -> option string.
Variable mapEC2TagsToMap : list ec2.Tag -> gmap string string.
Variable BlockDeviceMapping : Type.
(** [buildEphemeralDevices] returns a Go map; the list is that map in the
    order the [range] over it visits it. *)
Variable buildEphemeralDevices :
  option string -> Result (list (string * BlockDeviceMapping)).
Variable ToEC2 : BlockDeviceMapping -> string -> ec2.BlockDeviceMapping.
Variable DecodeString : string -> Result (list byte).
Variable EncodeToString : list byte -> string.
Variable LiteralSelfLink : string -> string -> terraform.Literal.

Definition nameFromIAMARN (arn : option string) : M (option string) :=
  match arn with
  | None => mret None
  | Some a =>
      let tokens := strings.Split a ":"%char in
      last ← index tokens (length tokens - 1)%nat;
      (if negb (strings.HasPrefix last "instance-profile/")
       then log (glog.Warningf "Unexpected ARN for instance profile: %q" [ArgString a])
       else mret tt);;
      let name := strings.TrimPrefix last "instance-profile/" in
      mret (Some name)
  end.

(** The block "Fetch instance UserData" of [Find]. *)
Definition fetchUserData (cloud : awsup.AWSCloud) (i : ec2.Instance)
  : M (option fi.Resource) :=
  let request :=
    {| ec2.AttrInstanceId := ec2.InstanceId i;
       ec2.Attribute := aws.String "userData" |} in
  r ← provider (awsup.CallDescribeInstanceAttribute request)
        (awsup.DescribeInstanceAttribute cloud request);
  match r with
  | inl err =>
      id ← deref (ec2.InstanceId i);
      fail (Errorf "error querying EC2 for user metadata for instance %q: %v"
              [ArgString id; ArgError err])
  | inr response =>
      response ← deref response;
      match ec2.AttrUserData response with
      | Some userData =>
          match DecodeString (aws.StringValue (ec2.AttrValue userData)) with
          | inl err => fail (Errorf "error decoding EC2 UserData: %v" [ArgError err])
          | inr b => mret (Some (fi.NewBytesResource b))
          end
      | None => mret None
      end
  end.

(** The loop over [i.NetworkInterfaces]: [flag] is
    [associatePublicIpAddress] so far. *)
Fixpoint scanPublicIp (nis : list ec2.InstanceNetworkInterface) (flag : bool)
  : M bool :=
  match nis with
  | [] => mret flag
  | ni :: rest =>
      association ← deref (ec2.Association ni);
      scanPublicIp rest
        (if String.eqb (aws.StringValue (ec2.PublicIp association)) ""
         then flag else true)
  end.

(** The block "Avoid spurious changes on ImageId" of [Find]. *)
Definition avoidSpuriousImageChange (cloud : awsup.AWSCloud) (e actual : Instance)
  : M Instance :=
  match ImageID e, ImageID actual with
  | Some eImage, Some actualImage =>
      if negb (String.eqb actualImage eImage) then
        r ← provider (awsup.CallResolveImage eImage) (awsup.ResolveImage cloud eImage);
        match r with
        | inl err =>
            log (glog.Warningf "unable to resolve image: %q: %v"
                   [ArgString eImage; ArgError err]);;
            mret actual
        | inr None =>
            log (glog.Warningf "unable to resolve image: %q: not found"
                   [ArgString eImage]);;
            mret actual
        | inr (Some image) =>
            if String.eqb (aws.StringValue (ec2.ImageImageId image)) actualImage then
              log (glog.InfoV 4 "Returning matching ImageId as expected name: %q -> %q"
                     [ArgString actualImage; ArgString eImage]);;
              mret (set_ImageID (ImageID e) actual)
            else mret actual
        end
      else mret actual
  | _, _ => mret actual
  end.

(** [Find], from the one instance the listing returned on. *)
Definition describe (cloud : awsup.AWSCloud) (i : ec2.Instance)
  : M (option Instance) :=
  match ec2.InstanceId i with
  | None => fail (Errorf "found instance, but InstanceId was nil" [])
  | Some _ =>
      userData ← fetchUserData cloud i;
      let subnet :=
        match ec2.SubnetId i with
        | Some _ => Some {| SubnetID := ec2.SubnetId i |}
        | None => None
        end in
      let sshKey :=
        match ec2.KeyName i with
        | Some _ => Some {| SSHKeyName := ec2.KeyName i |}
        | None => None
        end in
      let securityGroups :=
        map (fun sg => {| SecurityGroupID := ec2.GroupId sg |}) (ec2.SecurityGroups i) in
      associatePublicIpAddress ← scanPublicIp (ec2.NetworkInterfaces i) false;
      iamInstanceProfile ←
        match ec2.IamInstanceProfile_ i with
        | Some profile =>
            name ← nameFromIAMARN (ec2.Arn profile);
            mret (Some {| IAMInstanceProfileName := name |})
        | None => mret None
        end;
      let actual :=
        {| ID := ec2.InstanceId i;
           UserData := userData;
           Subnet_ := subnet;
           PrivateIPAddress := ec2.PrivateIpAddress i;
           Name := findNameTag (ec2.Tags i);
           Tags := mapEC2TagsToMap (ec2.Tags i);
           ImageID := ec2.ImageId i;
           InstanceType := ec2.InstanceType i;
           SSHKey_ := sshKey;
           SecurityGroups := securityGroups;
           AssociatePublicIP := Some associatePublicIpAddress;
           IAMInstanceProfile_ := iamInstanceProfile |} in
      modify_desired (set_ID (ID actual));;
      e ← get_desired;
      actual ← avoidSpuriousImageChange cloud e actual;
      mret (Some actual)
  end.

(** The instances of a listing, reservation by reservation. *)
Definition listed (response : option ec2.DescribeInstancesOutput) : list ec2.Instance :=
  match response with
  | Some response => flat_map ec2.Instances (ec2.Reservations response)
  | None => []
  end.

Definition findRequest (cloud : awsup.AWSCloud) (e : Instance)
  : ec2.DescribeInstancesInput :=
  let filters := awsup.BuildFilters cloud (Name e) in
  let filters :=
    filters ++ [awsup.NewEC2Filter "instance-state-name"
                  ["pending"; "running"; "stopping"; "stopped"]] in
  {| ec2.Filters := filters |}.

Definition Find (c : Context) : M (option Instance) :=
  let cloud := ContextCloud c in
  e ← get_desired;
  let request := findRequest cloud e in
  r ← provider (awsup.CallDescribeInstances request)
        (awsup.DescribeInstances cloud request);
  match r with
  | inl err => fail (Errorf "error listing instances: %v" [ArgError err])
  | inr response =>
      let instances := listed response in
      if (length instances =? 0)%nat then mret None
      else if negb (length instances =? 1)%nat then
        name ← deref (Name e);
        fail (Errorf "found multiple Instances with name: %s" [ArgString name])
      else
        log (glog.InfoV 2 "found existing instance" []);;
        i ← index instances 0;
        describe cloud i
  end.

Definition CheckChanges (a : option Instance) (e : Instance) (changes : option Instance)
  : option error :=
  match a with
  | Some _ =>
      match Name e with
      | None => Some (RequiredField "Name")
      | Some _ => None
      end
  | None => None
  end.

(** The block [if e.UserData != nil] of the create path: the value of
    [request.UserData]. *)
Definition encodeUserData (e : Instance) : M (option string) :=
  match UserData e with
  | Some resource =>
      match fi.ResourceAsBytes resource with
      | inl err =>
          fail (Errorf "error rendering Instance UserData: %v" [ArgError err])
      | inr d =>
          if Z.of_nat (length d) >? MaxUserDataSize then
            fail (Errorf "Instance UserData was too large (%d bytes)"
                    [ArgInt (Z.of_nat (length d))])
          else mret (aws.String (EncodeToString d))
      end
  | None => mret None
  end.

(** The create path of [RenderAWS]: the body of [if a == nil]. *)
Definition createInstance (t : awsup.AWSAPITarget) : M unit :=
  e ← get_desired;
  match ImageID e with
  | None => fail (RequiredField "ImageID")
  | Some imageID =>
      r ← provider (awsup.CallResolveImage imageID)
            (awsup.ResolveImage (awsup.Cloud t) imageID);
      match r with
      | inl err => fail err
      | inr image =>
          name ← deref (Name e);
          log (glog.InfoV 2 "Creating Instance with Name:%q" [ArgString name]);;
          image ← deref image;
          let keyName :=
            match SSHKey_ e with
            | Some key => SSHKeyName key
            | None => None
            end in
          let securityGroupIDs := map SecurityGroupID (SecurityGroups e) in
          subnet ← deref (Subnet_ e);
          let networkInterfaces :=
            [ {| ec2.DeviceIndex := aws.Int64 0;
                 ec2.AssociatePublicIpAddress := AssociatePublicIP e;
                 ec2.SpecSubnetId := SubnetID subnet;
                 ec2.SpecPrivateIpAddress := PrivateIPAddress e;
                 ec2.Groups := securityGroupIDs |} ] in
          match buildEphemeralDevices (InstanceType e) with
          | inl err => fail err
          | inr blockDeviceMappings =>
              let mappings :=
                map (fun entry => ToEC2 (snd entry) (fst entry)) blockDeviceMappings in
              userData ← encodeUserData e;
              let iamInstanceProfile :=
                match IAMInstanceProfile_ e with
                | Some profile =>
                    Some {| ec2.ProfileName := IAMInstanceProfileName profile |}
                | None => None
                end in
              let request :=
                {| ec2.ReqImageId := ec2.ImageImageId image;
                   ec2.ReqInstanceType := InstanceType e;
                   ec2.MinCount := aws.Int64 1;
                   ec2.MaxCount := aws.Int64 1;
                   ec2.ReqKeyName := keyName;
                   ec2.ReqNetworkInterfaces := networkInterfaces;
                   ec2.BlockDeviceMappings := mappings;
                   ec2.ReqUserData := userData;
                   ec2.ReqIamInstanceProfile := iamInstanceProfile |} in
              r ← provider (awsup.CallRunInstances request)
                    (awsup.RunInstances (awsup.Cloud t) request);
              match r with
              | inl err => fail (Errorf "error creating Instance: %v" [ArgError err])
              | inr response =>
                  response ← deref response;
                  first ← index (ec2.Instances response) 0;
                  modify_desired (set_ID (ec2.InstanceId first))
              end
          end
      end
  end.

(** [return t.AddAWSTags( *e.ID, e.Tags)] *)
Definition reconcileTags (t : awsup.AWSAPITarget) : M unit :=
  e ← get_desired;
  id ← deref (ID e);
  r ← provider (awsup.CallAddAWSTags id (Tags e)) (awsup.AddAWSTags t id (Tags e));
  match r with
  | Some err => fail err
  | None => mret tt
  end.

Definition RenderAWS (t : awsup.AWSAPITarget) (a changes : option Instance) : M unit :=
  match a with
  | None => createInstance t
  | Some _ => mret tt
  end;;
  reconcileTags t.

Definition TerraformLink : M terraform.Literal :=
  e ← get_desired;
  name ← deref (Name e);
  mret (LiteralSelfLink "aws_instance" name).

Definition start (e : Instance) : Pass :=
  {| desired := e; calls := []; logged := [] |}.

(** ** Sample data *)

(** Stand-ins for the helpers above, used to run the methods on concrete
    inputs: the name tag is the value of the first tag keyed "Name"; the
    payload codec is the identity on bytes and rejects "!". *)
Definition sampleFindNameTag (tags : list ec2.Tag) : option string :=
  match filter (fun tag => bool_decide (ec2.Key tag = Some "Name")) tags with
  | tag :: _ => ec2.Value tag
  | [] => None
  end.

Definition sampleMapTags (tags : list ec2.Tag) : gmap string string :=
  foldr (fun tag m => <[aws.StringValue (ec2.Key tag) := aws.StringValue (ec2.Value tag)]> m)
    ∅ tags.

Definition sampleDecodeString (s : string) : Result (list byte) :=
  if existsb (Ascii.eqb "!"%char) (list_ascii_of_string s)
  then inl (CloudError "illegal base64 data")
  else inr (list_byte_of_string s).

Definition sampleEncodeToString (d : list byte) : string := string_of_list_byte d.

Definition sampleBuildEphemeralDevices (instanceType : option string)
  : Result (list (string * string)) := inr [].

Definition sampleToEC2 (virtualName deviceName : string) : ec2.BlockDeviceMapping :=
  {| ec2.DeviceName := Some deviceName; ec2.VirtualName := Some virtualName |}.

Definition sampleLiteralSelfLink (resourceType resourceName : string)
  : terraform.Literal :=
  {| terraform.LiteralValue := resourceType +:+ "." +:+ resourceName +:+ ".id" |}.

Definition sampleCloud
    (listing : Result (option ec2.DescribeInstancesOutput))
    (attribute : Result (option ec2.DescribeInstanceAttributeOutput))
    (resolve : string -> Result (option ec2.Image))
    (run : Result (option ec2.Reservation)) : awsup.AWSCloud :=
  {| awsup.BuildFilters := fun name =>
       [ {| ec2.FilterName := Some "tag:Name"; ec2.FilterValues := [name] |} ];
     awsup.DescribeInstances := fun _ => listing;
     awsup.DescribeInstanceAttribute := fun _ => attribute;
     awsup.ResolveImage := resolve;
     awsup.RunInstances := fun _ => run |}.

Definition listingOf (instances : list ec2.Instance)
  : Result (option ec2.DescribeInstancesOutput) :=
  inr (Some {| ec2.Reservations := map (fun i => {| ec2.Instances := [i] |}) instances |}).

Definition noUserData : Result (option ec2.DescribeInstanceAttributeOutput) :=
  inr (Some {| ec2.AttrUserData := None |}).

Definition resolveTo (id : string) (name : string) : Result (option ec2.Image) :=
  inr (Some {| ec2.ImageImageId := Some id |}).

Definition resolveFails (name : string) : Result (option ec2.Image) :=
  inl (CloudError "RequestLimitExceeded").

Definition noRun : Result (option ec2.Reservation) :=
  inl (CloudError "UnauthorizedOperation").

(** A running node with a public address, and the same node in a private
    subnet: its network attachment has no association. *)
Definition publicNode : ec2.Instance :=
  {| ec2.InstanceId := Some "i-0abc";
     ec2.PrivateIpAddress := Some "10.0.0.4";
     ec2.InstanceType := Some "m5.large";
     ec2.ImageId := Some "ami-123";
     ec2.Tags := [ {| ec2.Key := Some "Name"; ec2.Value := Some "node-1" |} ];
     ec2.SubnetId := Some "subnet-1";
     ec2.KeyName := Some "admin";
     ec2.SecurityGroups := [ {| ec2.GroupId := Some "sg-1" |} ];
     ec2.NetworkInterfaces :=
       [ {| ec2.Association := Some {| ec2.PublicIp := Some "54.1.2.3" |} |} ];
     ec2.IamInstanceProfile_ :=
       Some {| ec2.Arn := Some "arn:aws:iam::1234:instance-profile/nodes" |} |}.

Definition privateNode : ec2.Instance :=
  {| ec2.InstanceId := Some "i-0abc";
     ec2.PrivateIpAddress := Some "10.0.0.4";
     ec2.InstanceType := Some "m5.large";
     ec2.ImageId := Some "ami-123";
     ec2.Tags := [ {| ec2.Key := Some "Name"; ec2.Value := Some "node-1" |} ];
     ec2.SubnetId := Some "subnet-1";
     ec2.KeyName := Some "admin";
     ec2.SecurityGroups := [ {| ec2.GroupId := Some "sg-1" |} ];
     ec2.NetworkInterfaces := [ {| ec2.Association := None |} ];
     ec2.IamInstanceProfile_ := None |}.

(** The desired descriptor of that node, with image reference [image] and
    startup payload [payload]. *)
Definition node1 (image : string) (payload : list byte) : Instance :=
  {| ID := None;
     UserData := Some (fi.NewBytesResource payload);
     Subnet_ := Some {| SubnetID := Some "subnet-1" |};
     PrivateIPAddress := None;
     Name := Some "node-1";
     Tags := {[ "Name" := "node-1" ]};
     ImageID := Some image;
     InstanceType := Some "m5.large";
     SSHKey_ := Some {| SSHKeyName := Some "admin" |};
     SecurityGroups := [ {| SecurityGroupID := Some "sg-1" |} ];
     AssociatePublicIP := Some false;
     IAMInstanceProfile_ := Some {| IAMInstanceProfileName := Some "nodes" |} |}.

(** Contexts over that data: no instance listed; the public node listed,
    with a given image resolution; both nodes listed; the public node
    listed but the user-data query refused; the private node listed. *)
Definition noneListed : Context :=
  {| ContextCloud := sampleCloud (listingOf []) noUserData resolveFails noRun |}.

Definition publicListed (resolve : string -> Result (option ec2.Image)) : Context :=
  {| ContextCloud := sampleCloud (listingOf [publicNode]) noUserData resolve noRun |}.

Definition bothListed : Context :=
  {| ContextCloud :=
       sampleCloud (listingOf [publicNode; privateNode]) noUserData resolveFails noRun |}.

Definition queryRefused : Context :=
  {| ContextCloud :=
       sampleCloud (listingOf [publicNode]) (inl (CloudError "RequestLimitExceeded"))
         resolveFails noRun |}.

Definition privateListed : Context :=
  {| ContextCloud := sampleCloud (listingOf [privateNode]) noUserData resolveFails noRun |}.

(** The descriptor discovery gives for the public node. *)
Definition publicNodeActual (image : string) : Instance :=
  {| ID := Some "i-0abc";
     UserData := None;
     Subnet_ := Some {| SubnetID := Some "subnet-1" |};
     PrivateIPAddress := Some "10.0.0.4";
     Name := Some "node-1";
     Tags := {[ "Name" := "node-1" ]};
     ImageID := Some image;
     InstanceType := Some "m5.large";
     SSHKey_ := Some {| SSHKeyName := Some "admin" |};
     SecurityGroups := [ {| SecurityGroupID := Some "sg-1" |} ];
     AssociatePublicIP := Some true;
     IAMInstanceProfile_ := Some {| IAMInstanceProfileName := Some "nodes" |} |}.

(** A desired descriptor that names nothing. *)
Definition anonymous : Instance :=
  {| ID := None;
     UserData := None;
     Subnet_ := Some {| SubnetID := Some "subnet-1" |};
     PrivateIPAddress := None;
     Name := None;
     Tags := ∅;
     ImageID := Some "ami-123";
     InstanceType := Some "m5.large";
     SSHKey_ := None;
     SecurityGroups := [];
     AssociatePublicIP := None;
     IAMInstanceProfile_ := None |}.

(** A live target whose create call answers [run], and tagging succeeds. *)
Definition liveTarget (run : Result (option ec2.Reservation)) : awsup.AWSAPITarget :=
  {| awsup.Cloud := sampleCloud (listingOf []) noUserData (resolveTo "ami-123") run;
     awsup.AddAWSTags := fun _ _ => None |}.

Definition created : Result (option ec2.Reservation) :=
  inr (Some {| ec2.Instances := [publicNode] |}).

(** A payload one byte over the ceiling. *)
Definition oversized : list byte := repeat x00 (Z.to_nat 16385).

(** A context whose listing call is refused; the public node listed with
    a user-data query that answers [value]; a live target whose image
    resolution fails; a payload of exactly the ceiling. *)
Definition listingRefused : Context :=
  {| ContextCloud :=
       sampleCloud (inl (CloudError "RequestLimitExceeded")) noUserData resolveFails
         noRun |}.

Definition userDataOf (value : string)
  : Result (option ec2.DescribeInstanceAttributeOutput) :=
  inr (Some {| ec2.AttrUserData := Some {| ec2.AttrValue := Some value |} |}).

Definition publicListedWith (value : string) : Context :=
  {| ContextCloud :=
       sampleCloud (listingOf [publicNode]) (userDataOf value) (resolveTo "ami-123")
         noRun |}.

Definition unresolvedTarget : awsup.AWSAPITarget :=
  {| awsup.Cloud := sampleCloud (listingOf []) noUserData resolveFails created;
     awsup.AddAWSTags := fun _ _ => None |}.

Definition atCeiling : list byte := repeat x00 (Z.to_nat 16384).

(** ** Vocabulary of the properties *)

(** The state after [cs] more provider calls and [entries] more log lines. *)
Definition after (cs : list awsup.ProviderCall) (entries : list glog.Entry) (s : Pass)
  : Pass :=
  {| desired := desired s; calls := calls s ++ cs; logged := logged s ++ entries |}.

(** The last of the colon-separated tokens of [arn]: either all of [arn],
    or what follows its last colon. *)
Definition lastToken (arn last : string) : Prop :=
  ~ In ":"%char (list_ascii_of_string last) /\
  (arn = last \/ exists pre, arn = pre +:+ String ":"%char last).

(** The listing for the name of the desired descriptor returned exactly
    the instance [i]. *)
Definition found (c : Context) (s : Pass) (i : ec2.Instance) : Prop :=
  exists response,
    awsup.DescribeInstances (ContextCloud c)
      (findRequest (ContextCloud c) (desired s)) = inr response /\
    listed response = [i].

Definition userDataRequest (i : ec2.Instance) : ec2.DescribeInstanceAttributeInput :=
  {| ec2.AttrInstanceId := ec2.InstanceId i;
     ec2.Attribute := aws.String "userData" |}.

(** The payload the attribute query answered with decodes. *)
Definition decodes (out : ec2.DescribeInstanceAttributeOutput) : Prop :=
  match ec2.AttrUserData out with
  | Some value =>
      exists b, DecodeString (aws.StringValue (ec2.AttrValue value)) = inr b
  | None => True
  end.

(** The network attachment has an association, and one with a non-empty
    public address. *)
Definition associated (ni : ec2.InstanceNetworkInterface) : bool :=
  match ec2.Association ni with
  | Some _ => true
  | None => false
  end.

Definition hasPublicIp (ni : ec2.InstanceNetworkInterface) : bool :=
  match ec2.Association ni with
  | Some association =>
      negb (String.eqb (aws.StringValue (ec2.PublicIp association)) "")
  | None => false
  end.

(** What [Find] needs of the one instance found to get through: an
    identifier, an answer to the user-data query that decodes, and an
    association on every network attachment. *)
Definition readable (c : Context) (i : ec2.Instance) : Prop :=
  is_Some (ec2.InstanceId i) /\
  (exists out,
     awsup.DescribeInstanceAttribute (ContextCloud c) (userDataRequest i)
       = inr (Some out) /\ decodes out) /\
  forallb associated (ec2.NetworkInterfaces i) = true.

(** The normalized descriptor of instance [i], given its decoded payload
    and its profile reference: identity, private address, instance class,
    image and name tag copied; subnet, key and security groups as
    reference-only stubs; the public-address flag from the attachments. *)
Definition normalized (i : ec2.Instance) (userData : option fi.Resource)
    (profile : option IAMInstanceProfile) : Instance :=
  {| ID := ec2.InstanceId i;
     UserData := userData;
     Subnet_ := (fun id => {| SubnetID := Some id |}) <$> ec2.SubnetId i;
     PrivateIPAddress := ec2.PrivateIpAddress i;
     Name := findNameTag (ec2.Tags i);
     Tags := mapEC2TagsToMap (ec2.Tags i);
     ImageID := ec2.ImageId i;
     InstanceType := ec2.InstanceType i;
     SSHKey_ := (fun name => {| SSHKeyName := Some name |}) <$> ec2.KeyName i;
     SecurityGroups :=
       (fun sg => {| SecurityGroupID := ec2.GroupId sg |}) <$> ec2.SecurityGroups i;
     AssociatePublicIP := Some (existsb hasPublicIp (ec2.NetworkInterfaces i));
     IAMInstanceProfile_ := profile |}.

(** The desired image reference is an alias of the actual image: they
    differ, and the provider resolves the first to the second. *)
Definition aliased (cloud : awsup.AWSCloud) (e actual : Instance) : bool :=
  match ImageID e, ImageID actual with
  | Some eImage, Some actualImage =>
      negb (String.eqb actualImage eImage) &&
      match awsup.ResolveImage cloud eImage with
      | inr (Some image) =>
          String.eqb (aws.StringValue (ec2.ImageImageId image)) actualImage
      | _ => false
      end
  | _, _ => false
  end.

(** [m] leaves every pass in relation [R] with the pass it started from. *)
Definition preserves {A} (R : Pass -> Pass -> Prop) (m : M A) : Prop :=
  forall s, R s (snd (m s)).

(** The descriptor is as before but for its [ID]. *)
Definition sameButID (s s' : Pass) : Prop :=
  desired s' = set_ID (ID (desired s')) (desired s).

(** The calls that create the instance or tag it. *)
Definition isRunInstances (call : awsup.ProviderCall) : bool :=
  match call with
  | awsup.CallRunInstances _ => true
  | _ => false
  end.

Definition isAddAWSTags (call : awsup.ProviderCall) : bool :=
  match call with
  | awsup.CallAddAWSTags _ _ => true
  | _ => false
  end.

(** Calls that only read from the provider, and the listing call. *)
Definition readsOnly (call : awsup.ProviderCall) : bool :=
  match call with
  | awsup.CallDescribeInstances _
  | awsup.CallDescribeInstanceAttribute _
  | awsup.CallResolveImage _ => true
  | _ => false
  end.

Definition isListing (call : awsup.ProviderCall) : bool :=
  match call with
  | awsup.CallDescribeInstances _ => true
  | _ => false
  end.

(** The calls discovery may make once it has listed: reads that are not
    another listing. *)
Definition afterListing (call : awsup.ProviderCall) : bool :=
  readsOnly call && negb (isListing call).

(** The pass went on with calls that all satisfy [P]. *)
Definition callsOnly (P : awsup.ProviderCall -> bool) (s s' : Pass) : Prop :=
  exists cs, calls s' = calls s ++ cs /\ forallb P cs = true.

(** The descriptor is as before. *)
Definition sameDesired (s s' : Pass) : Prop := desired s' = desired s.

(** The resolution call the anti-churn rule makes for a desired and an
    actual image: one when both are present and differ, none otherwise. *)
Definition resolutionCalls (desiredImage actualImage : option string)
  : list awsup.ProviderCall :=
  match desiredImage, actualImage with
  | Some x, Some a =>
      if String.eqb a x then [] else [awsup.CallResolveImage x]
  | _, _ => []
  end.

(** Two descriptors with the same name and the same image reference, and
    two computations that cannot tell such descriptors apart: started on
    passes whose descriptors agree they end alike, on passes whose
    descriptors agree. *)
Definition agree (e1 e2 : Instance) : Prop :=
  Name e1 = Name e2 /\ ImageID e1 = ImageID e2.

Definition related {A} (m1 m2 : M A) : Prop :=
  forall s1 s2,
    agree (desired s1) (desired s2) ->
    fst (m1 s1) = fst (m2 s2) /\
    agree (desired (snd (m1 s1))) (desired (snd (m2 s2))).

(** The one network attachment of a launch request. *)
Definition launchInterface (e : Instance) (subnet : Subnet)
  : ec2.InstanceNetworkInterfaceSpecification :=
  {| ec2.DeviceIndex := Some 0;
     ec2.AssociatePublicIpAddress := AssociatePublicIP e;
     ec2.SpecSubnetId := SubnetID subnet;
     ec2.SpecPrivateIpAddress := PrivateIPAddress e;
     ec2.Groups := SecurityGroupID <$> SecurityGroups e |}.

(** The value of [request.UserData] for a descriptor whose payload is
    absent, or renders to bytes within the ceiling. *)
Definition encodes (e : Instance) (userData : option string) : Prop :=
  match UserData e with
  | None => userData = None
  | Some resource =>
      exists d,
        fi.ResourceAsBytes resource = inr d /\
        Z.of_nat (length d) <= MaxUserDataSize /\
        userData = Some (EncodeToString d)
  end.

(** The launch request of the create path, from the descriptor, the image
    the reference resolved to, the subnet, the ephemeral devices and the
    encoded payload. *)
Definition launchRequest (e : Instance) (image : ec2.Image) (subnet : Subnet)
    (devices : list (string * BlockDeviceMapping)) (userData : option string)
  : ec2.RunInstancesInput :=
  {| ec2.ReqImageId := ec2.ImageImageId image;
     ec2.ReqInstanceType := InstanceType e;
     ec2.MinCount := Some 1;
     ec2.MaxCount := Some 1;
     ec2.ReqKeyName := SSHKey_ e ≫= SSHKeyName;
     ec2.ReqNetworkInterfaces := [launchInterface e subnet];
     ec2.BlockDeviceMappings := (fun entry => ToEC2 (snd entry) (fst entry)) <$> devices;
     ec2.ReqUserData := userData;
     ec2.ReqIamInstanceProfile :=
       (fun profile => {| ec2.ProfileName := IAMInstanceProfileName profile |})
         <$> IAMInstanceProfile_ e |}.

(** The create path got as far as the create call: the image reference is
    present and resolves, the name and the subnet are present, the devices
    are computed and the payload is encoded. *)
Definition launchable (t : awsup.AWSAPITarget) (e : Instance) (x : string)
    (image : ec2.Image) (name : string) (subnet : Subnet)
    (devices : list (string * BlockDeviceMapping)) (userData : option string)
  : Prop :=
  ImageID e = Some x /\
  awsup.ResolveImage (awsup.Cloud t) x = inr (Some image) /\
  Name e = Some name /\
  Subnet_ e = Some subnet /\
  buildEphemeralDevices (InstanceType e) = inr devices /\
  encodes e userData.

(** The calls of the create step: the image resolution and the create
    call. *)
Definition isResolveImage (call : awsup.ProviderCall) : bool :=
  match call with
  | awsup.CallResolveImage _ => true
  | _ => false
  end.

(** ** Running the monad *)

Lemma bind_run {A B} (m : M A) (k : A -> M B) (s : Pass) :
  (m ≫= k) s =
  match m s with
  | (Ret a, s') => k a s'
  | (Fail err, s') => (Fail err, s')
  | (Panic p, s') => (Panic p, s')
  end.
Proof. reflexivity. Qed.

Lemma bind_ret {A B} (m : M A) (k : A -> M B) (s s' : Pass) (a : A) :
  m s = (Ret a, s') -> (m ≫= k) s = k a s'.
Proof. intros E. rewrite bind_run, E. reflexivity. Qed.

Lemma after_nil (s : Pass) : after [] [] s = s.
Proof. destruct s; unfold after; simpl. by rewrite !app_nil_r. Qed.

Lemma after_after cs1 l1 cs2 l2 (s : Pass) :
  after cs2 l2 (after cs1 l1 s) = after (cs1 ++ cs2) (l1 ++ l2) s.
Proof. unfold after; simpl. by rewrite !app_assoc. Qed.

Lemma provider_run {A} (c : awsup.ProviderCall) (answer : A) (s : Pass) :
  provider c answer s = (Ret answer, after [c] [] s).
Proof. unfold provider, after. cbn. by rewrite app_nil_r. Qed.

Lemma log_run (entry : glog.Entry) (s : Pass) :
  log entry s = (Ret tt, after [] [entry] s).
Proof. unfold log, after. by rewrite app_nil_r. Qed.

(** ** Strings *)

Lemma Split_last (s : string) (sep : ascii) :
  exists init last,
    strings.Split s sep = init ++ [last] /\
    ~ In sep (list_ascii_of_string last) /\
    (init = [] /\ s = last \/
     init <> [] /\ exists pre, s = pre +:+ String sep last).
Proof.
  induction s as [|c s IH]; simpl.
  - exists [], EmptyString. simpl. auto.
  - destruct IH as (init & last & E & Hfree & Hshape).
    destruct (Ascii.eqb c sep) eqn:Hc.
    + apply Ascii.eqb_eq in Hc. subst c.
      exists (EmptyString :: init), last. rewrite E.
      split; [reflexivity|]. split; [assumption|].
      right. split; [discriminate|].
      destruct Hshape as [[_ ->] | [_ [pre ->]]].
      * exists EmptyString. reflexivity.
      * exists (String sep pre). reflexivity.
    + apply Ascii.eqb_neq in Hc. rewrite E.
      destruct init as [|t ts]; simpl.
      * exists [], (String c last). split; [reflexivity|].
        destruct Hshape as [[_ ->] | [Hne _]]; [|congruence].
        split; [|left; auto].
        simpl. intros [Heq | Hin]; [congruence | contradiction].
      * exists (String c t :: ts), last. split; [reflexivity|].
        split; [assumption|]. right. split; [discriminate|].
        destruct Hshape as [[Hnil _] | [_ [pre ->]]]; [discriminate|].
        exists (String c pre). reflexivity.
Qed.

Lemma append_String (c : ascii) (s t : string) :
  String c s +:+ t = String c (s +:+ t).
Proof. reflexivity. Qed.

Lemma HasPrefix_slice (s prefix : string) :
  strings.HasPrefix s prefix = true ->
  s = prefix +:+ strings.slice_from (String.length prefix) s.
Proof.
  unfold strings.HasPrefix. revert s.
  induction prefix as [|a p IH]; intros s H.
  - reflexivity.
  - destruct s as [|b s]; simpl in *; [discriminate|].
    destruct (ascii_dec a b) as [->|]; [|discriminate].
    rewrite append_String. f_equal. apply IH. assumption.
Qed.

Lemma HasPrefix_append (prefix rest : string) :
  strings.HasPrefix (prefix +:+ rest) prefix = true.
Proof.
  unfold strings.HasPrefix.
  induction prefix as [|a p IH]; simpl.
  - by destruct rest.
  - destruct (ascii_dec a a); [assumption | congruence].
Qed.

Lemma slice_from_append (prefix rest : string) :
  strings.slice_from (String.length prefix) (prefix +:+ rest) = rest.
Proof. induction prefix as [|a p IH]; simpl; [reflexivity | assumption]. Qed.

Lemma TrimPrefix_append (prefix rest : string) :
  strings.TrimPrefix (prefix +:+ rest) prefix = rest.
Proof.
  unfold strings.TrimPrefix. rewrite HasPrefix_append. apply slice_from_append.
Qed.

Lemma Split_free (s : string) (sep : ascii) :
  ~ In sep (list_ascii_of_string s) -> strings.Split s sep = [s].
Proof.
  induction s as [|c s IH]; simpl; [reflexivity|].
  intros H. destruct (Ascii.eqb c sep) eqn:Hc.
  - apply Ascii.eqb_eq in Hc. exfalso. apply H. left. exact Hc.
  - rewrite IH; [reflexivity|]. intros Hin. apply H. right. exact Hin.
Qed.

Lemma Split_after_sep (pre last : string) (sep : ascii) :
  ~ In sep (list_ascii_of_string last) ->
  exists t init,
    strings.Split (pre +:+ String sep last) sep = (t :: init) ++ [last].
Proof.
  intros Hfree. induction pre as [|c pre IH].
  - exists EmptyString, []. change (EmptyString +:+ String sep last)
      with (String sep last).
    simpl. rewrite Ascii.eqb_refl, (Split_free _ _ Hfree). reflexivity.
  - destruct IH as (t & init & E). rewrite append_String. simpl. rewrite E.
    destruct (Ascii.eqb c sep).
    + exists EmptyString, (t :: init). reflexivity.
    + exists (String c t), init. reflexivity.
Qed.

Lemma In_append (c : ascii) (a b : string) :
  In c (list_ascii_of_string (a +:+ b)) <->
  In c (list_ascii_of_string a) \/ In c (list_ascii_of_string b).
Proof.
  induction a as [|x a IH].
  - change (EmptyString +:+ b) with b. simpl.
    split; [intros H; right; exact H | intros [[]|H]; exact H].
  - rewrite append_String. simpl. rewrite IH. split.
    + intros [H|[H|H]]; [left; left; exact H | left; right; exact H | right; exact H].
    + intros [[H|H]|H]; [left; exact H | right; left; exact H | right; right; exact H].
Qed.

Lemma Split_lastToken (arn last : string) :
  lastToken arn last -> exists init, strings.Split arn ":"%char = init ++ [last].
Proof.
  intros [Hfree [-> | [pre ->]]].
  - exists []. exact (Split_free _ _ Hfree).
  - destruct (Split_after_sep pre last ":"%char Hfree) as (t & init & E).
    exists (t :: init). exact E.
Qed.

Lemma TerraformLink_run (s : Pass) :
  TerraformLink s =
  (match Name (desired s) with
   | Some name => Ret (LiteralSelfLink "aws_instance" name)
   | None => Panic NilDereference
   end, s).
Proof.
  unfold TerraformLink. rewrite bind_run. unfold get_desired.
  rewrite bind_run. unfold deref. by destruct (Name (desired s)).
Qed.

(** ** Properties *)

(** C7. On a nil ARN [nameFromIAMARN] returns nil. Every other ARN has a
    last colon-separated token, and whatever that token is: when it is
    "instance-profile/" followed by [name], [nameFromIAMARN] returns
    [name] and logs nothing; when it is not of that form, it logs one
    warning and returns the token as it is. In every case it returns a
    name: it never fails and never panics, and it neither calls the
    provider nor writes to the descriptor. *)
Theorem nameFromIAMARN_extracts_name (arn : option string) (s : Pass) :
  match arn with
  | None => nameFromIAMARN arn s = (Ret None, s)
  | Some a =>
      (exists last, lastToken a last) /\
      (forall last,
         lastToken a last ->
         (forall name,
            last = "instance-profile/" +:+ name ->
            nameFromIAMARN arn s = (Ret (Some name), s)) /\
         ((forall name, last <> "instance-profile/" +:+ name) ->
          nameFromIAMARN arn s =
          (Ret (Some last),
           after [] [glog.Warningf "Unexpected ARN for instance profile: %q"
                       [ArgString a]] s))) /\
      (exists name entries,
         nameFromIAMARN arn s = (Ret (Some name), after [] entries s))
  end.
Proof.
  destruct arn as [a|]; [|reflexivity].
  assert (Hrun : forall init last,
            strings.Split a ":"%char = init ++ [last] ->
            nameFromIAMARN (Some a) s =
            ((if negb (strings.HasPrefix last "instance-profile/")
              then log (glog.Warningf "Unexpected ARN for instance profile: %q"
                          [ArgString a])
              else mret tt);;
             mret (Some (strings.TrimPrefix last "instance-profile/"))) s).
  { intros init last E. unfold nameFromIAMARN. rewrite E.
    assert (Hidx : index (init ++ [last]) (length (init ++ [last]) - 1)%nat s
                   = (Ret last, s)).
    { unfold index. rewrite length_app. simpl.
      replace (length init + 1 - 1)%nat with (length init) by lia.
      by rewrite list_lookup_middle. }
    by rewrite (bind_ret _ _ _ _ _ Hidx). }
  destruct (Split_last a ":"%char) as (init0 & last0 & E0 & Hfree0 & Hshape0).
  split; [|split].
  - exists last0. split; [assumption|].
    destruct Hshape0 as [[_ ->] | [_ Hpre]]; auto.
  - intros last Hlast. destruct (Split_lastToken a last Hlast) as [init E].
    rewrite (Hrun init last E). split.
    + intros name ->. rewrite HasPrefix_append, TrimPrefix_append. reflexivity.
    + intros Hnot.
      destruct (strings.HasPrefix last "instance-profile/") eqn:Hp.
      * apply HasPrefix_slice in Hp. exfalso. exact (Hnot _ Hp).
      * simpl. rewrite bind_run, log_run. unfold strings.TrimPrefix.
        rewrite Hp. reflexivity.
  - rewrite (Hrun init0 last0 E0).
    destruct (strings.HasPrefix last0 "instance-profile/") eqn:Hp; simpl.
    + exists (strings.TrimPrefix last0 "instance-profile/"), [].
      rewrite after_nil. reflexivity.
    + rewrite bind_run, log_run. eexists. eexists. reflexivity.
Qed.

(** C6. [CheckChanges] returns the required-field error for "Name" exactly
    when an actual instance exists and the desired name is nil, and returns
    no error otherwise; its answer depends on nothing but the presence of
    [a] and of [e.Name]. *)
Theorem CheckChanges_requires_name (a : option Instance) (e : Instance)
    (changes : option Instance) :
  (CheckChanges a e changes = Some (RequiredField "Name") <->
   is_Some a /\ Name e = None) /\
  (CheckChanges a e changes = None <-> ~ (is_Some a /\ Name e = None)) /\
  (forall a' e' changes',
     (is_Some a <-> is_Some a') ->
     (is_Some (Name e) <-> is_Some (Name e')) ->
     CheckChanges a' e' changes' = CheckChanges a e changes).
Proof.
  unfold CheckChanges. split; [|split].
  - destruct a, (Name e); split; intros H; try discriminate; auto.
    + destruct H as [_ H]; discriminate.
    + destruct H as [[x Hx] _]; discriminate.
    + destruct H as [[x Hx] _]; discriminate.
  - destruct a as [a0|], (Name e); split; intros H; try discriminate; auto.
    + intros [_ Hn]; discriminate.
    + exfalso. apply H. split; [by exists a0 | reflexivity].
    + intros [[x Hx] _]; discriminate.
    + intros [[x Hx] _]; discriminate.
  - intros a' e' _ Ha He.
    assert (Hnone : forall A, ~ @is_Some A None) by (intros A [x Hx]; discriminate).
    destruct a as [a0|], a' as [a0'|].
    + destruct (Name e) as [n|], (Name e') as [n'|]; try reflexivity; exfalso.
      * apply (Hnone string), He. by eexists.
      * apply (Hnone string), He. by eexists.
    + exfalso. apply (Hnone Instance), Ha. by eexists.
    + exfalso. apply (Hnone Instance), Ha. by eexists.
    + reflexivity.
Qed.

(** C8. On descriptors with the same name, [TerraformLink] returns the same
    reference, the self link of "aws_instance" and that name; it records no
    provider call and leaves the whole state as it found it. *)
Theorem TerraformLink_by_name_only (s1 s2 : Pass) (name : string) :
  Name (desired s1) = Some name ->
  Name (desired s2) = Some name ->
  fst (TerraformLink s1) = fst (TerraformLink s2) /\
  fst (TerraformLink s1) = Ret (LiteralSelfLink "aws_instance" name) /\
  snd (TerraformLink s1) = s1 /\
  snd (TerraformLink s2) = s2.
Proof.
  intros H1 H2. rewrite !TerraformLink_run, H1, H2. simpl. auto.
Qed.

(** ** The discovery, step by step *)

Lemma scanPublicIp_run (nis : list ec2.InstanceNetworkInterface) (flag : bool)
    (s : Pass) :
  scanPublicIp nis flag s =
  (if forallb associated nis
   then Ret (flag || existsb hasPublicIp nis)
   else Panic NilDereference, s).
Proof.
  revert flag. induction nis as [|ni nis IH]; intros flag; simpl.
  - by rewrite orb_false_r.
  - rewrite bind_run. unfold deref, associated at 1, hasPublicIp at 1.
    destruct (ec2.Association ni) as [association|]; simpl; [|reflexivity].
    rewrite IH.
    destruct (String.eqb (aws.StringValue (ec2.PublicIp association)) "");
      simpl; [reflexivity|].
    by rewrite orb_true_r.
Qed.

Lemma nameFromIAMARN_total (arn : option string) (s : Pass) :
  exists name entries, nameFromIAMARN arn s = (Ret name, after [] entries s).
Proof.
  destruct arn as [a|].
  { destruct (Split_last a ":"%char) as (init & last & E & _ & _).
    unfold nameFromIAMARN. rewrite E, bind_run. unfold index.
    rewrite length_app. simpl.
    replace (length init + 1 - 1)%nat with (length init) by lia.
    rewrite list_lookup_middle by reflexivity.
    destruct (strings.HasPrefix last "instance-profile/"); simpl.
    - eexists _, []. by rewrite after_nil.
    - rewrite bind_run, log_run. eexists _, [_]. reflexivity. }
  exists None, []. by rewrite after_nil.
Qed.

Lemma avoidSpuriousImageChange_run (cloud : awsup.AWSCloud) (e actual : Instance)
    (s : Pass) :
  exists cs entries,
    avoidSpuriousImageChange cloud e actual s =
    (Ret (if aliased cloud e actual then set_ImageID (ImageID e) actual else actual),
     after cs entries s).
Proof.
  unfold avoidSpuriousImageChange, aliased.
  destruct (ImageID e) as [x|], (ImageID actual) as [a|];
    try (exists [], []; by rewrite after_nil).
  destruct (String.eqb a x); simpl; [exists [], []; by rewrite after_nil|].
  rewrite bind_run, provider_run.
  destruct (awsup.ResolveImage cloud x) as [err|[image|]].
  - rewrite bind_run, log_run, after_after. eexists _, _. reflexivity.
  - destruct (String.eqb (aws.StringValue (ec2.ImageImageId image)) a).
    + rewrite bind_run, log_run, after_after. eexists _, _. reflexivity.
    + eexists _, _. reflexivity.
  - rewrite bind_run, log_run, after_after. eexists _, _. reflexivity.
Qed.

Lemma fetchUserData_readable (c : Context) (i : ec2.Instance) (s : Pass) :
  readable c i ->
  exists userData,
    fetchUserData (ContextCloud c) i s =
    (Ret userData, after [awsup.CallDescribeInstanceAttribute (userDataRequest i)] [] s).
Proof.
  intros (_ & (out & Hout & Hdec) & _).
  unfold fetchUserData. fold (userDataRequest i).
  rewrite bind_run, provider_run, Hout, bind_run. unfold deref, decodes in *.
  destruct (ec2.AttrUserData out) as [value|].
  - destruct Hdec as [b ->]. eexists. reflexivity.
  - eexists. reflexivity.
Qed.

Lemma Find_listing (c : Context) (s : Pass)
    (response : option ec2.DescribeInstancesOutput) :
  let cloud := ContextCloud c in
  let request := findRequest cloud (desired s) in
  awsup.DescribeInstances cloud request = inr response ->
  Find c s =
  match listed response with
  | [] => (Ret None, after [awsup.CallDescribeInstances request] [] s)
  | [i] =>
      describe cloud i
        (after [awsup.CallDescribeInstances request]
           [glog.InfoV 2 "found existing instance" []] s)
  | _ :: _ :: _ =>
      (match Name (desired s) with
       | Some name =>
           Fail (Errorf "found multiple Instances with name: %s" [ArgString name])
       | None => Panic NilDereference
       end, after [awsup.CallDescribeInstances request] [] s)
  end.
Proof.
  intros cloud request H. unfold Find. fold cloud.
  rewrite bind_run. unfold get_desired. fold request.
  rewrite bind_run, provider_run, H.
  destruct (listed response) as [|i [|j rest]]; simpl.
  - reflexivity.
  - rewrite bind_run, log_run, after_after. simpl. rewrite bind_run. reflexivity.
  - rewrite bind_run. unfold deref. by destruct (Name (desired s)).
Qed.

Lemma describe_readable (c : Context) (i : ec2.Instance) (s : Pass) :
  readable c i ->
  let cloud := ContextCloud c in
  let e := set_ID (ec2.InstanceId i) (desired s) in
  exists userData profile entries,
    describe cloud i s =
    (actual ← avoidSpuriousImageChange cloud e (normalized i userData profile);
     mret (Some actual))
      {| desired := e;
         calls := calls s ++ [awsup.CallDescribeInstanceAttribute (userDataRequest i)];
         logged := logged s ++ entries |}.
Proof.
  intros Hr cloud e.
  destruct (fetchUserData_readable c i s Hr) as [userData Hfetch].
  destruct Hr as ([id Hid] & _ & Hassoc).
  unfold describe. rewrite Hid. fold cloud in Hfetch.
  rewrite (bind_ret _ _ _ _ _ Hfetch), bind_run, scanPublicIp_run, Hassoc.
  rewrite bind_run. simpl orb.
  set (s1 := after _ _ s).
  assert (exists profile entries,
    (match ec2.IamInstanceProfile_ i with
     | Some profile =>
         name ← nameFromIAMARN (ec2.Arn profile);
         mret (Some {| IAMInstanceProfileName := name |})
     | None => mret None
     end) s1 = (Ret profile, after [] entries s1)) as (profile & entries & ->).
  { destruct (ec2.IamInstanceProfile_ i) as [p|].
    - destruct (nameFromIAMARN_total (ec2.Arn p) s1) as (name & entries & E).
      rewrite (bind_ret _ _ _ _ _ E). eexists _, _. reflexivity.
    - exists None, []. by rewrite after_nil. }
  rewrite bind_run. unfold modify_desired. rewrite bind_run. unfold get_desired.
  exists userData, profile, entries.
  subst s1 e. unfold after, normalized. simpl. rewrite <- Hid, !app_nil_r.
  destruct (ec2.SubnetId i), (ec2.KeyName i); reflexivity.
Qed.

Lemma describe_returns (c : Context) (i : ec2.Instance) (s : Pass) :
  readable c i ->
  let cloud := ContextCloud c in
  let e := set_ID (ec2.InstanceId i) (desired s) in
  exists userData profile s',
    let actual := normalized i userData profile in
    describe cloud i s =
    (Ret (Some (if aliased cloud e actual
                then set_ImageID (ImageID e) actual else actual)), s') /\
    desired s' = e.
Proof.
  intros Hr. cbv zeta.
  destruct (describe_readable c i s Hr) as (userData & profile & entries & E).
  cbv zeta in E. rewrite E. clear E.
  match goal with
  | |- context [mbind _ (avoidSpuriousImageChange ?cloud ?e ?a) ?s2] =>
      destruct (avoidSpuriousImageChange_run cloud e a s2) as (cs & ls & E)
  end.
  rewrite (bind_ret _ _ _ _ _ E).
  eexists userData, profile, _. split; reflexivity.
Qed.

Lemma fetchUserData_inv (c : Context) (i : ec2.Instance) (s s' : Pass)
    (userData : option fi.Resource) :
  fetchUserData (ContextCloud c) i s = (Ret userData, s') ->
  exists out,
    awsup.DescribeInstanceAttribute (ContextCloud c) (userDataRequest i)
      = inr (Some out) /\ decodes out.
Proof.
  unfold fetchUserData. fold (userDataRequest i).
  rewrite bind_run, provider_run.
  destruct (awsup.DescribeInstanceAttribute (ContextCloud c) (userDataRequest i))
    as [err|[out|]]; rewrite bind_run; unfold deref.
  - destruct (ec2.InstanceId i); discriminate.
  - intros H. exists out. split; [reflexivity|]. unfold decodes.
    destruct (ec2.AttrUserData out) as [value|]; [|exact I].
    destruct (DecodeString (aws.StringValue (ec2.AttrValue value))) as [err|b];
      [discriminate | by exists b].
  - discriminate.
Qed.

Lemma describe_inv (c : Context) (i : ec2.Instance) (s s' : Pass)
    (r : option Instance) :
  describe (ContextCloud c) i s = (Ret r, s') -> readable c i.
Proof.
  unfold describe.
  destruct (ec2.InstanceId i) as [id|] eqn:Hid; [|discriminate].
  rewrite bind_run.
  destruct (fetchUserData (ContextCloud c) i s) as [[userData|err|p] s1] eqn:Hfetch;
    try discriminate.
  rewrite bind_run, scanPublicIp_run.
  destruct (forallb associated (ec2.NetworkInterfaces i)) eqn:Hassoc;
    [|discriminate].
  intros _. split; [by exists id|]. split; [|exact Hassoc].
  by apply fetchUserData_inv in Hfetch.
Qed.

Lemma Find_inv (c : Context) (s s' : Pass) (actual : Instance) :
  Find c s = (Ret (Some actual), s') ->
  exists i s1, found c s i /\ describe (ContextCloud c) i s1 = (Ret (Some actual), s')
    /\ desired s1 = desired s.
Proof.
  intros H.
  destruct (awsup.DescribeInstances (ContextCloud c)
              (findRequest (ContextCloud c) (desired s))) as [err|response] eqn:Hl.
  - unfold Find in H. rewrite bind_run in H. unfold get_desired in H.
    rewrite bind_run, provider_run, Hl in H. discriminate.
  - rewrite (Find_listing c s response Hl) in H.
    destruct (listed response) as [|i [|j rest]] eqn:Hlisted.
    + discriminate.
    + eexists i, _. split; [by exists response|]. split; [exact H | reflexivity].
    + destruct (Name (desired s)); discriminate.
Qed.

(** ** What a method may write *)

Lemma set_ID_same (e : Instance) : set_ID (ID e) e = e.
Proof. by destruct e. Qed.

#[local] Instance sameButID_refl : Reflexive sameButID.
Proof. intros s. unfold sameButID. by rewrite set_ID_same. Qed.

#[local] Instance sameButID_trans : Transitive sameButID.
Proof.
  intros s1 s2 s3. unfold sameButID. intros H12 H23.
  rewrite H23, H12. reflexivity.
Qed.

Lemma preserves_bind {A B} (R : Pass -> Pass -> Prop) `{!Transitive R}
    (m : M A) (k : A -> M B) :
  preserves R m -> (forall a, preserves R (k a)) -> preserves R (m ≫= k).
Proof.
  intros Hm Hk s. rewrite bind_run. specialize (Hm s).
  destruct (m s) as [[a|err|p] s1]; simpl in *; auto.
  transitivity s1; [exact Hm | apply Hk].
Qed.

Lemma preserves_ret {A} (a : A) : preserves sameButID (mret a).
Proof. intros s. reflexivity. Qed.

Lemma preserves_fail {A} (err : error) : preserves sameButID (@fail A err).
Proof. intros s. reflexivity. Qed.

Lemma preserves_get : preserves sameButID get_desired.
Proof. intros s. reflexivity. Qed.

Lemma preserves_deref {A} (p : option A) : preserves sameButID (deref p).
Proof. intros s. unfold deref. destruct p; reflexivity. Qed.

Lemma preserves_index {A} (l : list A) (n : nat) : preserves sameButID (index l n).
Proof. intros s. unfold index. destruct (l !! n); reflexivity. Qed.

Lemma preserves_log (entry : glog.Entry) : preserves sameButID (log entry).
Proof. intros s. unfold sameButID. simpl. by rewrite set_ID_same. Qed.

Lemma preserves_provider {A} (call : awsup.ProviderCall) (answer : A) :
  preserves sameButID (provider call answer).
Proof. intros s. rewrite provider_run. unfold sameButID. simpl. by rewrite set_ID_same. Qed.

Lemma preserves_set_ID (id : option string) :
  preserves sameButID (modify_desired (set_ID id)).
Proof. intros s. reflexivity. Qed.

Create HintDb frame.
#[local] Hint Resolve preserves_ret preserves_fail preserves_get preserves_deref
  preserves_index preserves_log preserves_provider preserves_set_ID : frame.

(** Walks a monadic body: a bind splits, a [match] is taken case by case,
    and the primitives close by the [frame] hints. *)
Ltac frame :=
  repeat first
    [ progress auto with frame
    | apply preserves_bind; [typeclasses eauto | | intros ?]
    | match goal with
      | |- preserves _ (match ?x with _ => _ end) => destruct x
      end
    | progress cbv zeta ].

Lemma preserves_scanPublicIp (nis : list ec2.InstanceNetworkInterface) (flag : bool) :
  preserves sameButID (scanPublicIp nis flag).
Proof. intros s. rewrite scanPublicIp_run. reflexivity. Qed.

Lemma preserves_nameFromIAMARN (arn : option string) :
  preserves sameButID (nameFromIAMARN arn).
Proof. unfold nameFromIAMARN. frame. Qed.

Lemma preserves_fetchUserData (cloud : awsup.AWSCloud) (i : ec2.Instance) :
  preserves sameButID (fetchUserData cloud i).
Proof. unfold fetchUserData. frame. Qed.

Lemma preserves_avoidSpuriousImageChange (cloud : awsup.AWSCloud) (e actual : Instance) :
  preserves sameButID (avoidSpuriousImageChange cloud e actual).
Proof. unfold avoidSpuriousImageChange. frame. Qed.

#[local] Hint Resolve preserves_scanPublicIp preserves_nameFromIAMARN
  preserves_fetchUserData preserves_avoidSpuriousImageChange : frame.

Lemma preserves_describe (cloud : awsup.AWSCloud) (i : ec2.Instance) :
  preserves sameButID (describe cloud i).
Proof. unfold describe. frame. Qed.

#[local] Hint Resolve preserves_describe : frame.

Lemma preserves_Find (c : Context) : preserves sameButID (Find c).
Proof. unfold Find. frame. Qed.

(** ** Discovery *)

(** C1, as amended. When the listing answers: with no matching instance
    [Find] returns nil and no error, having made that one call; with two or
    more and a name on the descriptor it fails with the multiplicity error;
    with exactly one it returns the normalized descriptor (its image
    reference replaced by the desired one when that is an alias of it) and
    writes the identity found into the desired descriptor, provided the
    instance is readable. A nil identifier, a failed user-data query and a
    payload that does not decode are returned as errors instead. *)
Theorem Find_by_number_of_matches (c : Context) (s : Pass)
    (response : option ec2.DescribeInstancesOutput) :
  let cloud := ContextCloud c in
  let request := findRequest cloud (desired s) in
  awsup.DescribeInstances cloud request = inr response ->
  (listed response = [] ->
   Find c s = (Ret None, after [awsup.CallDescribeInstances request] [] s)) /\
  (forall name, (2 <= length (listed response))%nat ->
     Name (desired s) = Some name ->
     fst (Find c s) =
     Fail (Errorf "found multiple Instances with name: %s" [ArgString name])) /\
  (forall i, listed response = [i] ->
     (readable c i ->
      exists userData profile s',
        let actual := normalized i userData profile in
        let e := set_ID (ec2.InstanceId i) (desired s) in
        Find c s =
        (Ret (Some (if aliased cloud e actual
                    then set_ImageID (ImageID e) actual else actual)), s') /\
        desired s' = e) /\
     (ec2.InstanceId i = None ->
      fst (Find c s) = Fail (Errorf "found instance, but InstanceId was nil" [])) /\
     (forall id err,
        ec2.InstanceId i = Some id ->
        awsup.DescribeInstanceAttribute cloud (userDataRequest i) = inl err ->
        fst (Find c s) =
        Fail (Errorf "error querying EC2 for user metadata for instance %q: %v"
                [ArgString id; ArgError err])) /\
     (forall id out value err,
        ec2.InstanceId i = Some id ->
        awsup.DescribeInstanceAttribute cloud (userDataRequest i) = inr (Some out) ->
        ec2.AttrUserData out = Some value ->
        DecodeString (aws.StringValue (ec2.AttrValue value)) = inl err ->
        fst (Find c s) =
        Fail (Errorf "error decoding EC2 UserData: %v" [ArgError err]))).
Proof.
  intros cloud request Hl. pose proof (Find_listing c s response Hl) as HF.
  cbv zeta in HF. fold cloud request in HF.
  split; [|split].
  - intros E. rewrite HF, E. reflexivity.
  - intros name Hlen Hname. rewrite HF.
    destruct (listed response) as [|i [|j rest]]; simpl in Hlen; try lia.
    rewrite Hname. reflexivity.
  - intros i E. rewrite E in HF. rewrite HF. clear HF.
    set (s1 := after _ _ s).
    split; [|split; [|split]].
    + intros Hr.
      destruct (describe_returns c i s1 Hr) as (userData & profile & s' & Hd & He).
      exists userData, profile, s'. split; [exact Hd | exact He].
    + intros Hid. unfold describe. rewrite Hid. reflexivity.
    + intros id err Hid Hq. unfold describe, fetchUserData.
      fold (userDataRequest i). rewrite Hid.
      rewrite !bind_run, provider_run. fold cloud. rewrite Hq.
      rewrite bind_run. reflexivity.
    + intros id out value err Hid Hq Hv Hdec. unfold describe, fetchUserData.
      fold (userDataRequest i). rewrite Hid.
      rewrite !bind_run, provider_run. fold cloud. rewrite Hq.
      rewrite bind_run. simpl. rewrite Hv, Hdec. reflexivity.
Qed.

(** C2. With a desired image reference [x] that differs from the actual
    identifier [a] of the one readable instance found, [Find] returns a
    descriptor whatever the resolution of [x], which it asks the provider
    for, gives: when it gives [a] the
    descriptor's image reference is [x]; when it gives another identifier
    it stays [a]; when it gives nothing or fails it stays [a] and a warning
    is logged. *)
Theorem Find_image_alias_resolution (c : Context) (s : Pass) (i : ec2.Instance)
    (x a : string) :
  found c s i ->
  readable c i ->
  ImageID (desired s) = Some x ->
  ec2.ImageId i = Some a ->
  x <> a ->
  exists actual s',
    Find c s = (Ret (Some actual), s') /\
    In (awsup.CallResolveImage x) (calls s') /\
    match awsup.ResolveImage (ContextCloud c) x with
    | inr (Some image) =>
        if String.eqb (aws.StringValue (ec2.ImageImageId image)) a
        then ImageID actual = Some x
        else ImageID actual = Some a
    | inr None =>
        ImageID actual = Some a /\
        In (glog.Warningf "unable to resolve image: %q: not found" [ArgString x])
          (logged s')
    | inl err =>
        ImageID actual = Some a /\
        In (glog.Warningf "unable to resolve image: %q: %v"
              [ArgString x; ArgError err]) (logged s')
    end.
Proof.
  intros (response & Hl & Hlisted) Hr Hx Ha Hne.
  rewrite (Find_listing c s response Hl), Hlisted.
  set (s1 := after _ _ s).
  destruct (describe_readable c i s1 Hr) as (userData & profile & entries & E).
  cbv zeta in E. rewrite E. clear E.
  rewrite bind_run. unfold avoidSpuriousImageChange.
  subst s1. cbn [ImageID set_ID normalized desired after].
  rewrite Hx, Ha.
  assert (String.eqb a x = false) as ->
    by (apply String.eqb_neq; congruence).
  change (negb false) with true. cbv iota. rewrite bind_run, provider_run.
  assert (Hcall : forall (l : list awsup.ProviderCall) ls s0,
            In (awsup.CallResolveImage x)
              (calls (after l ls (after [awsup.CallResolveImage x] [] s0)))).
  { intros l ls s0. simpl. rewrite !in_app_iff. left. right. by left. }
  destruct (awsup.ResolveImage (ContextCloud c) x) as [err|[image|]].
  - rewrite bind_run, log_run. eexists _, _. split; [reflexivity|].
    split; [apply Hcall|].
    split; [exact Ha|]. simpl. rewrite !in_app_iff. right. left. reflexivity.
  - destruct (String.eqb (aws.StringValue (ec2.ImageImageId image)) a).
    + rewrite bind_run, log_run. eexists _, _. split; [reflexivity|].
      split; [apply Hcall | reflexivity].
    + eexists _, _. split; [reflexivity|]. split; [|exact Ha].
      simpl. rewrite !in_app_iff. right. by left.
  - rewrite bind_run, log_run. eexists _, _. split; [reflexivity|].
    split; [apply Hcall|].
    split; [exact Ha|]. simpl. rewrite !in_app_iff. right. left. reflexivity.
Qed.

(** C5. The instance a returned descriptor was built from is the one
    found, and the descriptor's public-address flag is set, and is true
    exactly when one of that instance's network attachments has an
    association with a non-empty public address. *)
Theorem Find_public_ip_flag (c : Context) (s s' : Pass) (actual : Instance) :
  Find c s = (Ret (Some actual), s') ->
  exists i,
    found c s i /\
    AssociatePublicIP actual = Some (existsb hasPublicIp (ec2.NetworkInterfaces i)) /\
    (AssociatePublicIP actual = Some true <->
     exists ni association ip,
       In ni (ec2.NetworkInterfaces i) /\
       ec2.Association ni = Some association /\
       ec2.PublicIp association = Some ip /\
       ip <> EmptyString).
Proof.
  intros H. apply Find_inv in H as (i & s1 & Hfound & Hd & _).
  exists i. split; [exact Hfound|].
  pose proof (describe_inv c i s1 s' _ Hd) as Hr.
  destruct (describe_returns c i s1 Hr) as (userData & profile & s2 & Hd2 & _).
  cbv zeta in Hd2. rewrite Hd2 in Hd. injection Hd as Hactual _.
  assert (Hflag : AssociatePublicIP actual =
                  Some (existsb hasPublicIp (ec2.NetworkInterfaces i))).
  { rewrite <- Hactual.
    destruct (aliased _ _ _); reflexivity. }
  split; [exact Hflag|]. rewrite Hflag. split.
  - intros Hb. injection Hb as Hb. apply existsb_exists in Hb as (ni & Hin & Hni).
    unfold hasPublicIp in Hni.
    destruct (ec2.Association ni) as [association|] eqn:Hassoc; [|discriminate].
    destruct (ec2.PublicIp association) as [ip|] eqn:Hip; [|discriminate].
    exists ni, association, ip. repeat split; auto.
    intros ->. discriminate.
  - intros (ni & association & ip & Hin & Hassoc & Hip & Hne).
    f_equal. apply existsb_exists. exists ni. split; [exact Hin|].
    unfold hasPublicIp. rewrite Hassoc, Hip. simpl.
    apply negb_true_iff, String.eqb_neq. exact Hne.
Qed.

(** C9. Whatever [Find] does and however it ends, of the desired
    descriptor it was invoked on it changes no field but [ID]: the payload,
    the network placement, the name, the tags, the image reference, the
    instance class, the key, the security groups, the public-address flag
    and the profile are as before. *)
Theorem Find_writes_identity_only (c : Context) (s : Pass) :
  let e := desired s in
  let e' := desired (snd (Find c s)) in
  UserData e' = UserData e /\
  Subnet_ e' = Subnet_ e /\
  PrivateIPAddress e' = PrivateIPAddress e /\
  Name e' = Name e /\
  Tags e' = Tags e /\
  ImageID e' = ImageID e /\
  InstanceType e' = InstanceType e /\
  SSHKey_ e' = SSHKey_ e /\
  SecurityGroups e' = SecurityGroups e /\
  AssociatePublicIP e' = AssociatePublicIP e /\
  IAMInstanceProfile_ e' = IAMInstanceProfile_ e.
Proof.
  pose proof (preserves_Find c s) as H. unfold sameButID in H.
  cbv zeta. rewrite H. simpl. repeat split.
Qed.

(** C10, as the code has it. The scan dereferences the association of
    every network attachment: when the one instance found has an
    identifier and a user-data answer that decodes, but one of its
    attachments has no association, [Find] panics on a nil dereference
    instead of returning a flag. *)
Theorem Find_panics_without_association (c : Context) (s : Pass) (i : ec2.Instance)
    (ni : ec2.InstanceNetworkInterface)
    (out : ec2.DescribeInstanceAttributeOutput) :
  found c s i ->
  is_Some (ec2.InstanceId i) ->
  awsup.DescribeInstanceAttribute (ContextCloud c) (userDataRequest i)
    = inr (Some out) ->
  decodes out ->
  In ni (ec2.NetworkInterfaces i) ->
  ec2.Association ni = None ->
  fst (Find c s) = Panic NilDereference.
Proof.
  intros (response & Hl & Hlisted) [id Hid] Hq Hdec Hin Hnone.
  rewrite (Find_listing c s response Hl), Hlisted.
  set (s1 := after _ _ s).
  unfold describe. rewrite Hid, bind_run.
  assert (exists userData s2,
            fetchUserData (ContextCloud c) i s1 = (Ret userData, s2))
    as (userData & s2 & ->).
  { unfold fetchUserData. fold (userDataRequest i).
    rewrite bind_run, provider_run, Hq, bind_run. unfold deref, decodes in *.
    destruct (ec2.AttrUserData out) as [value|].
    - destruct Hdec as [b ->]. eexists _, _. reflexivity.
    - eexists _, _. reflexivity. }
  rewrite bind_run, scanPublicIp_run.
  assert (forallb associated (ec2.NetworkInterfaces i) = false) as ->.
  { apply not_true_is_false. intros Hall.
    rewrite forallb_forall in Hall. specialize (Hall ni Hin).
    unfold associated in Hall. rewrite Hnone in Hall. discriminate. }
  reflexivity.
Qed.

(** ** Rendering *)

Ltac unbind H :=
  repeat first
    [ rewrite bind_run in H
    | rewrite provider_run in H
    | rewrite log_run in H
    | progress unfold mret, M_ret, get_desired, deref, index, fail, modify_desired in H
    | progress cbv beta iota zeta in H ].

Lemma encodeUserData_state (e : Instance) (s : Pass) :
  snd (encodeUserData e s) = s.
Proof.
  unfold encodeUserData.
  destruct (UserData e) as [resource|]; [|reflexivity].
  destruct (fi.ResourceAsBytes resource) as [err|d]; [reflexivity|].
  destruct (Z.of_nat (length d) >? MaxUserDataSize); reflexivity.
Qed.

Lemma encodeUserData_oversized (e : Instance) (s : Pass) (resource : fi.Resource)
    (d : list byte) :
  UserData e = Some resource ->
  fi.ResourceAsBytes resource = inr d ->
  Z.of_nat (length d) > MaxUserDataSize ->
  encodeUserData e s =
  (Fail (Errorf "Instance UserData was too large (%d bytes)"
           [ArgInt (Z.of_nat (length d))]), s).
Proof.
  intros Hu Hb Hlen. unfold encodeUserData. rewrite Hu, Hb.
  assert ((Z.of_nat (length d) >? MaxUserDataSize) = true) as ->
    by (apply Z.gtb_lt; lia).
  reflexivity.
Qed.

Lemma createInstance_inv (t : awsup.AWSAPITarget) (s s1 : Pass) :
  createInstance t s = (Ret tt, s1) ->
  exists x request response first,
    ImageID (desired s) = Some x /\
    awsup.RunInstances (awsup.Cloud t) request = inr (Some response) /\
    ec2.Instances response !! 0%nat = Some first /\
    desired s1 = set_ID (ec2.InstanceId first) (desired s) /\
    calls s1 = calls s ++ [awsup.CallResolveImage x; awsup.CallRunInstances request].
Proof.
  intros H. unfold createInstance in H. unbind H.
  destruct (ImageID (desired s)) as [x|] eqn:Hx; [|discriminate].
  unbind H.
  destruct (awsup.ResolveImage (awsup.Cloud t) x) as [err|image]; [discriminate|].
  unbind H. simpl desired in H.
  destruct (Name (desired s)) as [name|]; [|discriminate].
  unbind H.
  destruct image as [image|]; [|discriminate].
  unbind H. simpl desired in H.
  destruct (Subnet_ (desired s)) as [subnet|]; [|discriminate].
  unbind H.
  destruct (buildEphemeralDevices (InstanceType (desired s))) as [err|devices];
    [discriminate|].
  unbind H.
  match type of H with
  | context [encodeUserData ?e ?s0] =>
      pose proof (encodeUserData_state e s0) as Hs;
      destruct (encodeUserData e s0) as [[userData|err|p] s2]; try discriminate
  end.
  simpl in Hs. subst s2. unbind H.
  match type of H with
  | context [awsup.CallRunInstances ?r] => set (request := r) in H
  end.
  destruct (awsup.RunInstances (awsup.Cloud t) request) as [err|response] eqn:Hrun;
    [discriminate|].
  unbind H.
  destruct response as [response|]; [|discriminate].
  unbind H.
  destruct (ec2.Instances response !! 0%nat) as [first|] eqn:Hfirst; [|discriminate].
  unbind H. injection H as <-.
  exists x, request, response, first. simpl.
  repeat split; auto.
  by rewrite <- !app_assoc.
Qed.

(** C4. When [RenderAWS] succeeds, on the create path or on the update
    path, the provider calls it made end with the tagging call, no call
    before it is a tagging call, and it tags the identity the descriptor
    holds at the end with the descriptor's tags: the identity it already
    had when an actual instance was given, with no other call made, and
    otherwise the identity of the first instance the create call
    returned. *)
Theorem RenderAWS_tags_once_and_last (t : awsup.AWSAPITarget)
    (a changes : option Instance) (s s' : Pass) :
  RenderAWS t a changes s = (Ret tt, s') ->
  exists id cs,
    calls s' = calls s ++ cs ++ [awsup.CallAddAWSTags id (Tags (desired s))] /\
    existsb isAddAWSTags cs = false /\
    ID (desired s') = Some id /\
    awsup.AddAWSTags t id (Tags (desired s)) = None /\
    match a with
    | Some _ => cs = [] /\ ID (desired s) = Some id
    | None =>
        exists request response first,
          In (awsup.CallRunInstances request) cs /\
          awsup.RunInstances (awsup.Cloud t) request = inr (Some response) /\
          ec2.Instances response !! 0%nat = Some first /\
          ec2.InstanceId first = Some id
    end.
Proof.
  intros H. unfold RenderAWS in H. rewrite bind_run in H.
  destruct a as [actual|].
  - unfold reconcileTags in H. unbind H.
    destruct (ID (desired s)) as [id|] eqn:Hid; [|discriminate].
    unbind H.
    destruct (awsup.AddAWSTags t id (Tags (desired s))) as [err|] eqn:Htag;
      [discriminate|].
    injection H as <-. exists id, []. simpl. repeat split; auto.
  - destruct (createInstance t s) as [[[]|err|p] s1] eqn:Hc; try discriminate.
    apply createInstance_inv in Hc
      as (x & request & response & first & Hx & Hrun & Hfirst & Hd & Hcalls).
    unfold reconcileTags in H. unbind H. rewrite Hd in H. simpl in H.
    destruct (ec2.InstanceId first) as [id|] eqn:Hid; [|discriminate].
    destruct (awsup.AddAWSTags t id (Tags (desired s))) as [err|] eqn:Htag;
      [discriminate|].
    injection H as <-.
    exists id, [awsup.CallResolveImage x; awsup.CallRunInstances request].
    simpl. rewrite Hcalls, Hd, <- app_assoc. simpl.
    repeat split; auto.
    exists request, response, first. auto.
Qed.

Ltac run :=
  repeat first
    [ rewrite bind_run
    | rewrite provider_run
    | rewrite log_run
    | progress unfold mret, M_ret, get_desired, deref, index, fail, modify_desired
    | progress cbv beta iota zeta ].

(** C3, as amended. On the create path, with a payload that renders to
    more than [MaxUserDataSize] bytes, [RenderAWS] never succeeds and makes
    neither the create call nor the tagging call: the only provider call it
    can have made is the resolution of the image reference. When the image
    reference is present and resolves, the name and the subnet are present
    and the ephemeral devices are computed, it has made exactly that call
    and fails with the size error, which reports the size of the payload. *)
Theorem RenderAWS_rejects_oversized_UserData (t : awsup.AWSAPITarget)
    (changes : option Instance) (s : Pass) (resource : fi.Resource) (d : list byte) :
  UserData (desired s) = Some resource ->
  fi.ResourceAsBytes resource = inr d ->
  Z.of_nat (length d) > MaxUserDataSize ->
  let r := RenderAWS t None changes s in
  (forall u, fst r <> Ret u) /\
  (calls (snd r) = calls s \/
   exists x, ImageID (desired s) = Some x /\
             calls (snd r) = calls s ++ [awsup.CallResolveImage x]) /\
  (forall x image name subnet devices,
     ImageID (desired s) = Some x ->
     awsup.ResolveImage (awsup.Cloud t) x = inr (Some image) ->
     Name (desired s) = Some name ->
     Subnet_ (desired s) = Some subnet ->
     buildEphemeralDevices (InstanceType (desired s)) = inr devices ->
     fst r = Fail (Errorf "Instance UserData was too large (%d bytes)"
                     [ArgInt (Z.of_nat (length d))]) /\
     calls (snd r) = calls s ++ [awsup.CallResolveImage x]).
Proof.
  intros Hu Hb Hlen r. subst r. unfold RenderAWS, createInstance. run.
  destruct (ImageID (desired s)) as [x|] eqn:Hx.
  2: { simpl. split; [discriminate|]. split; [by left|]. intros. congruence. }
  run.
  destruct (awsup.ResolveImage (awsup.Cloud t) x) as [err|image] eqn:Hres.
  { simpl. rewrite ?app_nil_r. split; [discriminate|]. split; [right; by exists x|]. intros. congruence. }
  run. simpl desired.
  destruct (Name (desired s)) as [name|] eqn:Hname.
  2: { simpl. rewrite ?app_nil_r. split; [discriminate|]. split; [right; by exists x|]. intros. congruence. }
  run.
  destruct image as [image|].
  2: { simpl. rewrite ?app_nil_r. split; [discriminate|]. split; [right; by exists x|]. intros. congruence. }
  run. simpl desired.
  destruct (Subnet_ (desired s)) as [subnet|] eqn:Hsubnet.
  2: { simpl. rewrite ?app_nil_r. split; [discriminate|]. split; [right; by exists x|]. intros. congruence. }
  run.
  destruct (buildEphemeralDevices (InstanceType (desired s))) as [err|devices] eqn:Hdev.
  { simpl. rewrite ?app_nil_r. split; [discriminate|]. split; [right; by exists x|]. intros. congruence. }
  run. rewrite (encodeUserData_oversized _ _ resource d Hu Hb Hlen). simpl.
  rewrite app_nil_r.
  split; [discriminate|]. split; [right; by exists x|].
  intros x' image' name' subnet' devices' Hx' _ _ _ _.
  injection Hx' as <-. split; reflexivity.
Qed.

(** ** More on what a method may do *)

#[local] Instance sameDesired_refl : Reflexive sameDesired.
Proof. intros s. reflexivity. Qed.

#[local] Instance sameDesired_trans : Transitive sameDesired.
Proof. intros s1 s2 s3. unfold sameDesired. congruence. Qed.

#[local] Instance callsOnly_refl P : Reflexive (callsOnly P).
Proof. intros s. exists []. by rewrite app_nil_r. Qed.

#[local] Instance callsOnly_trans P : Transitive (callsOnly P).
Proof.
  intros s1 s2 s3 (cs1 & E1 & H1) (cs2 & E2 & H2).
  exists (cs1 ++ cs2). rewrite E2, E1, app_assoc. split; [reflexivity|].
  rewrite forallb_app, H1, H2. reflexivity.
Qed.

Lemma keeps_ret {A} (a : A) : preserves sameDesired (mret a).
Proof. intros s. reflexivity. Qed.

Lemma keeps_fail {A} (err : error) : preserves sameDesired (@fail A err).
Proof. intros s. reflexivity. Qed.

Lemma keeps_get : preserves sameDesired get_desired.
Proof. intros s. reflexivity. Qed.

Lemma keeps_deref {A} (p : option A) : preserves sameDesired (deref p).
Proof. intros s. unfold deref. destruct p; reflexivity. Qed.

Lemma keeps_index {A} (l : list A) (n : nat) : preserves sameDesired (index l n).
Proof. intros s. unfold index. destruct (l !! n); reflexivity. Qed.

Lemma keeps_log (entry : glog.Entry) : preserves sameDesired (log entry).
Proof. intros s. reflexivity. Qed.

Lemma keeps_provider {A} (call : awsup.ProviderCall) (answer : A) :
  preserves sameDesired (provider call answer).
Proof. intros s. rewrite provider_run. reflexivity. Qed.

Lemma trace_ret {A} P (a : A) : preserves (callsOnly P) (mret a).
Proof. intros s. reflexivity. Qed.

Lemma trace_fail {A} P (err : error) : preserves (callsOnly P) (@fail A err).
Proof. intros s. reflexivity. Qed.

Lemma trace_get P : preserves (callsOnly P) get_desired.
Proof. intros s. reflexivity. Qed.

Lemma trace_deref {A} P (p : option A) : preserves (callsOnly P) (deref p).
Proof. intros s. unfold deref. destruct p; reflexivity. Qed.

Lemma trace_index {A} P (l : list A) (n : nat) : preserves (callsOnly P) (index l n).
Proof. intros s. unfold index. destruct (l !! n); reflexivity. Qed.

Lemma trace_log P (entry : glog.Entry) : preserves (callsOnly P) (log entry).
Proof. intros s. exists []. simpl. by rewrite app_nil_r. Qed.

Lemma trace_modify P (f : Instance -> Instance) :
  preserves (callsOnly P) (modify_desired f).
Proof. intros s. exists []. simpl. by rewrite app_nil_r. Qed.

Lemma trace_provider {A} (P : awsup.ProviderCall -> bool)
    (call : awsup.ProviderCall) (answer : A) :
  P call = true -> preserves (callsOnly P) (provider call answer).
Proof.
  intros HP s. rewrite provider_run. exists [call]. simpl.
  by rewrite HP.
Qed.

#[local] Hint Resolve keeps_ret keeps_fail keeps_get keeps_deref keeps_index
  keeps_log keeps_provider trace_ret trace_fail trace_get trace_deref trace_index
  trace_log trace_modify trace_provider : frame.

Lemma keeps_scanPublicIp (nis : list ec2.InstanceNetworkInterface) (flag : bool) :
  preserves sameDesired (scanPublicIp nis flag).
Proof. intros s. rewrite scanPublicIp_run. reflexivity. Qed.

Lemma trace_scanPublicIp P (nis : list ec2.InstanceNetworkInterface) (flag : bool) :
  preserves (callsOnly P) (scanPublicIp nis flag).
Proof. intros s. rewrite scanPublicIp_run. reflexivity. Qed.

Lemma keeps_nameFromIAMARN (arn : option string) :
  preserves sameDesired (nameFromIAMARN arn).
Proof. unfold nameFromIAMARN. frame. Qed.

Lemma trace_nameFromIAMARN P (arn : option string) :
  preserves (callsOnly P) (nameFromIAMARN arn).
Proof. unfold nameFromIAMARN. frame. Qed.

Lemma keeps_fetchUserData (cloud : awsup.AWSCloud) (i : ec2.Instance) :
  preserves sameDesired (fetchUserData cloud i).
Proof. unfold fetchUserData. frame. Qed.

Lemma trace_fetchUserData (cloud : awsup.AWSCloud) (i : ec2.Instance) :
  preserves (callsOnly afterListing) (fetchUserData cloud i).
Proof. unfold fetchUserData. frame. Qed.

Lemma keeps_avoidSpuriousImageChange (cloud : awsup.AWSCloud) (e actual : Instance) :
  preserves sameDesired (avoidSpuriousImageChange cloud e actual).
Proof. unfold avoidSpuriousImageChange. frame. Qed.

Lemma trace_avoidSpuriousImageChange (cloud : awsup.AWSCloud) (e actual : Instance) :
  preserves (callsOnly afterListing) (avoidSpuriousImageChange cloud e actual).
Proof. unfold avoidSpuriousImageChange. frame. Qed.

#[local] Hint Resolve keeps_scanPublicIp trace_scanPublicIp keeps_nameFromIAMARN
  trace_nameFromIAMARN keeps_fetchUserData trace_fetchUserData
  keeps_avoidSpuriousImageChange trace_avoidSpuriousImageChange : frame.

Lemma trace_describe (cloud : awsup.AWSCloud) (i : ec2.Instance) :
  preserves (callsOnly afterListing) (describe cloud i).
Proof. unfold describe. frame. Qed.

(** ** More on discovery *)

Lemma fetchUserData_snd (cloud : awsup.AWSCloud) (i : ec2.Instance) (s : Pass) :
  snd (fetchUserData cloud i s) =
  after [awsup.CallDescribeInstanceAttribute (userDataRequest i)] [] s.
Proof.
  unfold fetchUserData. fold (userDataRequest i). rewrite bind_run, provider_run.
  destruct (awsup.DescribeInstanceAttribute cloud (userDataRequest i))
    as [err|[out|]]; rewrite bind_run; unfold deref.
  - by destruct (ec2.InstanceId i).
  - destruct (ec2.AttrUserData out) as [value|]; [|reflexivity].
    by destruct (DecodeString (aws.StringValue (ec2.AttrValue value))).
  - reflexivity.
Qed.

Lemma fetchUserData_value (cloud : awsup.AWSCloud) (i : ec2.Instance) (s s' : Pass)
    (userData : option fi.Resource) :
  fetchUserData cloud i s = (Ret userData, s') ->
  exists out,
    awsup.DescribeInstanceAttribute cloud (userDataRequest i) = inr (Some out) /\
    match ec2.AttrUserData out with
    | Some value =>
        exists b,
          DecodeString (aws.StringValue (ec2.AttrValue value)) = inr b /\
          userData = Some (fi.NewBytesResource b)
    | None => userData = None
    end.
Proof.
  unfold fetchUserData. fold (userDataRequest i).
  rewrite bind_run, provider_run.
  destruct (awsup.DescribeInstanceAttribute cloud (userDataRequest i))
    as [err|[out|]]; rewrite bind_run; unfold deref.
  - destruct (ec2.InstanceId i); discriminate.
  - intros H. exists out. split; [reflexivity|].
    destruct (ec2.AttrUserData out) as [value|].
    + destruct (DecodeString (aws.StringValue (ec2.AttrValue value))) as [err|b];
        [discriminate|].
      exists b. split; [reflexivity|]. by injection H as <- _.
    + by injection H as <- _.
  - discriminate.
Qed.

Lemma avoidSpuriousImageChange_snd (cloud : awsup.AWSCloud) (e actual : Instance)
    (s : Pass) :
  exists entries,
    snd (avoidSpuriousImageChange cloud e actual s) =
    after (resolutionCalls (ImageID e) (ImageID actual)) entries s.
Proof.
  unfold avoidSpuriousImageChange, resolutionCalls.
  destruct (ImageID e) as [x|], (ImageID actual) as [a|];
    try (exists []; by rewrite after_nil).
  destruct (String.eqb a x); simpl; [exists []; by rewrite after_nil|].
  rewrite bind_run, provider_run.
  destruct (awsup.ResolveImage cloud x) as [err|[image|]].
  - rewrite bind_run, log_run, after_after. eexists. reflexivity.
  - destruct (String.eqb (aws.StringValue (ec2.ImageImageId image)) a).
    + rewrite bind_run, log_run, after_after. eexists. reflexivity.
    + exists []. reflexivity.
  - rewrite bind_run, log_run, after_after. eexists. reflexivity.
Qed.

(** [describe] once the payload is fetched and the scan is through. *)
Lemma describe_steps (cloud : awsup.AWSCloud) (i : ec2.Instance) (s s1 : Pass)
    (id : string) (userData : option fi.Resource) :
  ec2.InstanceId i = Some id ->
  fetchUserData cloud i s = (Ret userData, s1) ->
  forallb associated (ec2.NetworkInterfaces i) = true ->
  exists profile entries,
    describe cloud i s =
    (actual ← avoidSpuriousImageChange cloud (set_ID (Some id) (desired s1))
               (normalized i userData profile);
     mret (Some actual))
      {| desired := set_ID (Some id) (desired s1);
         calls := calls s1;
         logged := logged s1 ++ entries |}.
Proof.
  intros Hid Hfetch Hassoc. unfold describe. rewrite Hid.
  rewrite (bind_ret _ _ _ _ _ Hfetch), bind_run, scanPublicIp_run, Hassoc.
  rewrite bind_run. simpl orb.
  assert (exists profile entries,
    (match ec2.IamInstanceProfile_ i with
     | Some profile =>
         name ← nameFromIAMARN (ec2.Arn profile);
         mret (Some {| IAMInstanceProfileName := name |})
     | None => mret None
     end) s1 = (Ret profile, after [] entries s1)) as (profile & entries & ->).
  { destruct (ec2.IamInstanceProfile_ i) as [p|].
    - destruct (nameFromIAMARN_total (ec2.Arn p) s1) as (name & entries & E).
      rewrite (bind_ret _ _ _ _ _ E). eexists _, _. reflexivity.
    - exists None, []. by rewrite after_nil. }
  rewrite bind_run. unfold modify_desired. rewrite bind_run. unfold get_desired.
  exists profile, entries.
  unfold after, normalized. simpl. rewrite <- Hid, !app_nil_r.
  destruct (ec2.SubnetId i), (ec2.KeyName i); reflexivity.
Qed.

(** What [describe] gives when it returns: the normalized descriptor, its
    image reference swapped for the desired one on an alias, and a pass
    that holds the identity and the calls made. *)
Lemma describe_inv_full (cloud : awsup.AWSCloud) (i : ec2.Instance) (s s' : Pass)
    (r : option Instance) :
  describe cloud i s = (Ret r, s') ->
  exists id userData s1 profile entries,
    ec2.InstanceId i = Some id /\
    fetchUserData cloud i s = (Ret userData, s1) /\
    let e := set_ID (Some id) (desired s) in
    let actual := normalized i userData profile in
    r = Some (if aliased cloud e actual
              then set_ImageID (ImageID e) actual else actual) /\
    s' = after (awsup.CallDescribeInstanceAttribute (userDataRequest i)
                  :: resolutionCalls (ImageID (desired s)) (ec2.ImageId i))
           entries
           {| desired := e; calls := calls s; logged := logged s |}.
Proof.
  intros H. pose proof H as H0. unfold describe in H0.
  destruct (ec2.InstanceId i) as [id|] eqn:Hid; [|discriminate].
  rewrite bind_run in H0.
  destruct (fetchUserData cloud i s) as [[userData|err|p] s1] eqn:Hfetch;
    try discriminate.
  rewrite bind_run, scanPublicIp_run in H0.
  destruct (forallb associated (ec2.NetworkInterfaces i)) eqn:Hassoc;
    [|discriminate].
  clear H0.
  destruct (describe_steps cloud i s s1 id userData Hid Hfetch Hassoc)
    as (profile & entries & E).
  rewrite E in H. clear E.
  pose proof (fetchUserData_snd cloud i s) as Hs1. rewrite Hfetch in Hs1.
  simpl in Hs1. subst s1. simpl desired in H.
  match type of H with
  | context [mbind _ (avoidSpuriousImageChange cloud ?e ?a) ?s2] =>
      destruct (avoidSpuriousImageChange_run cloud e a s2) as (cs & ls & Ea);
      destruct (avoidSpuriousImageChange_snd cloud e a s2) as (ls' & Es)
  end.
  rewrite (bind_ret _ _ _ _ _ Ea) in H. rewrite Ea in Es. simpl snd in Es.
  injection H as <- <-.
  eexists id, userData, _, profile, (entries ++ ls').
  split; [reflexivity|]. split; [reflexivity|]. cbv zeta.
  split; [reflexivity|]. rewrite Es.
  unfold after. simpl. rewrite app_nil_r, <- !app_assoc. reflexivity.
Qed.

Lemma Find_inv_listed (c : Context) (s s' : Pass) (actual : Instance) :
  Find c s = (Ret (Some actual), s') ->
  exists i,
    found c s i /\
    describe (ContextCloud c) i
      (after [awsup.CallDescribeInstances (findRequest (ContextCloud c) (desired s))]
         [glog.InfoV 2 "found existing instance" []] s)
    = (Ret (Some actual), s').
Proof.
  intros H.
  destruct (awsup.DescribeInstances (ContextCloud c)
              (findRequest (ContextCloud c) (desired s))) as [err|response] eqn:Hl.
  - unfold Find in H. rewrite bind_run in H. unfold get_desired in H.
    rewrite bind_run, provider_run, Hl in H. discriminate.
  - rewrite (Find_listing c s response Hl) in H.
    destruct (listed response) as [|i [|j rest]] eqn:Hlisted.
    + discriminate.
    + exists i. split; [by exists response | exact H].
    + destruct (Name (desired s)); discriminate.
Qed.

Lemma Find_listing_error (c : Context) (s : Pass) (err : error) :
  let cloud := ContextCloud c in
  let request := findRequest cloud (desired s) in
  awsup.DescribeInstances cloud request = inl err ->
  Find c s =
  (Fail (Errorf "error listing instances: %v" [ArgError err]),
   after [awsup.CallDescribeInstances request] [] s).
Proof.
  intros cloud request H. unfold Find. fold cloud. rewrite bind_run.
  unfold get_desired. fold request. rewrite bind_run, provider_run, H.
  reflexivity.
Qed.

(** X1. However [Find] ends, the provider calls it made are one listing
    call, whose filters are the name filters of the cloud followed by the
    state filter on pending, running, stopping and stopped, and after it
    only attribute queries and image resolutions: never a second listing,
    a create call or a tagging call. *)
Theorem Find_calls_read_only (c : Context) (s : Pass) :
  let cloud := ContextCloud c in
  let request := findRequest cloud (desired s) in
  ec2.Filters request =
    awsup.BuildFilters cloud (Name (desired s)) ++
    [ {| ec2.FilterName := Some "instance-state-name";
         ec2.FilterValues :=
           [Some "pending"; Some "running"; Some "stopping"; Some "stopped"] |} ] /\
  exists cs,
    calls (snd (Find c s)) = calls s ++ awsup.CallDescribeInstances request :: cs /\
    forallb afterListing cs = true.
Proof.
  intros cloud request. split; [reflexivity|].
  destruct (awsup.DescribeInstances cloud request) as [err|response] eqn:Hl.
  - rewrite (Find_listing_error c s err Hl). exists []. split; reflexivity.
  - rewrite (Find_listing c s response Hl). fold cloud request.
    destruct (listed response) as [|i [|j rest]].
    + exists []. split; reflexivity.
    + match goal with
      | |- context [describe cloud i ?s1] =>
          destruct (trace_describe cloud i s1) as (cs & E & Hcs)
      end.
      exists cs. rewrite E. simpl. rewrite <- app_assoc. split; [reflexivity | exact Hcs].
    + exists []. split; reflexivity.
Qed.

(** X2. When [Find] returns a descriptor it has made, in this order, the
    listing call, the user-data query for the instance found and, only if
    the desired and the actual image are both present and differ, one
    resolution of the desired image; nothing else. *)
Theorem Find_calls_on_success (c : Context) (s s' : Pass) (actual : Instance) :
  Find c s = (Ret (Some actual), s') ->
  exists i,
    found c s i /\
    calls s' =
    calls s ++
    [awsup.CallDescribeInstances (findRequest (ContextCloud c) (desired s));
     awsup.CallDescribeInstanceAttribute (userDataRequest i)] ++
    resolutionCalls (ImageID (desired s)) (ec2.ImageId i).
Proof.
  intros H. apply Find_inv_listed in H as (i & Hfound & Hd).
  exists i. split; [exact Hfound|].
  apply describe_inv_full in Hd
    as (id & userData & s2 & profile & entries & _ & _ & _ & ->).
  simpl. rewrite <- !app_assoc. reflexivity.
Qed.

Lemma describe_desired (cloud : awsup.AWSCloud) (i : ec2.Instance) (s : Pass) :
  desired (snd (describe cloud i s)) =
  match fst (describe cloud i s) with
  | Ret (Some actual) => set_ID (ID actual) (desired s)
  | _ => desired s
  end.
Proof.
  destruct (describe cloud i s) as [[r|err|p] s'] eqn:E; simpl.
  - apply describe_inv_full in E
      as (id & userData & s1 & profile & entries & Hid & _ & -> & ->).
    simpl. destruct (aliased _ _ _); simpl; by rewrite Hid.
  - unfold describe in E.
    destruct (ec2.InstanceId i) as [id|] eqn:Hid; [|by injection E as _ <-].
    rewrite bind_run in E. pose proof (keeps_fetchUserData cloud i s) as Hk.
    destruct (fetchUserData cloud i s) as [[userData|err'|p] s1] eqn:Hfetch;
      try discriminate; [|by injection E as _ <-].
    rewrite bind_run, scanPublicIp_run in E.
    destruct (forallb associated (ec2.NetworkInterfaces i)) eqn:Hassoc;
      [|discriminate].
    exfalso.
    assert (Hd : fst (describe cloud i s) = Fail err).
    { unfold describe. rewrite Hid, bind_run, Hfetch, bind_run, scanPublicIp_run, Hassoc.
      by rewrite E. }
    destruct (describe_steps cloud i s s1 id userData Hid Hfetch Hassoc)
      as (profile & entries & Es).
    rewrite Es in Hd.
    match type of Hd with
    | context [mbind _ (avoidSpuriousImageChange cloud ?e ?a) ?s2] =>
        destruct (avoidSpuriousImageChange_run cloud e a s2) as (cs & ls & Ea)
    end.
    rewrite (bind_ret _ _ _ _ _ Ea) in Hd. discriminate.
  - unfold describe in E.
    destruct (ec2.InstanceId i) as [id|] eqn:Hid; [|discriminate].
    rewrite bind_run in E. pose proof (keeps_fetchUserData cloud i s) as Hk.
    destruct (fetchUserData cloud i s) as [[userData|err'|p'] s1] eqn:Hfetch;
      try discriminate; [|by injection E as _ <-].
    rewrite bind_run, scanPublicIp_run in E.
    destruct (forallb associated (ec2.NetworkInterfaces i)) eqn:Hassoc;
      [|by injection E as _ <-].
    exfalso.
    assert (Hd : fst (describe cloud i s) = Panic p).
    { unfold describe. rewrite Hid, bind_run, Hfetch, bind_run, scanPublicIp_run, Hassoc.
      by rewrite E. }
    destruct (describe_steps cloud i s s1 id userData Hid Hfetch Hassoc)
      as (profile & entries & Es).
    rewrite Es in Hd.
    match type of Hd with
    | context [mbind _ (avoidSpuriousImageChange cloud ?e ?a) ?s2] =>
        destruct (avoidSpuriousImageChange_run cloud e a s2) as (cs & ls & Ea)
    end.
    rewrite (bind_ret _ _ _ _ _ Ea) in Hd. discriminate.
Qed.

Lemma Find_desired (c : Context) (s : Pass) :
  desired (snd (Find c s)) =
  match fst (Find c s) with
  | Ret (Some actual) => set_ID (ID actual) (desired s)
  | _ => desired s
  end.
Proof.
  destruct (awsup.DescribeInstances (ContextCloud c)
              (findRequest (ContextCloud c) (desired s))) as [err|response] eqn:Hl.
  - by rewrite (Find_listing_error c s err Hl).
  - rewrite (Find_listing c s response Hl).
    destruct (listed response) as [|i [|j rest]]; try reflexivity.
    + match goal with
      | |- context [describe ?cloud i ?s1] => exact (describe_desired cloud i s1)
      end.
    + by destruct (Name (desired s)).
Qed.

(** X3. [Find] writes to the desired descriptor only when it returns a
    descriptor: then the desired descriptor gets that descriptor's
    identity, which is present, so that the two compare equal by ID. When
    [Find] returns nil, fails or panics, the desired descriptor is exactly
    as it was. *)
Theorem Find_writes_ID_on_success_only (c : Context) (s : Pass) :
  (forall actual,
     fst (Find c s) = Ret (Some actual) ->
     desired (snd (Find c s)) = set_ID (ID actual) (desired s) /\
     is_Some (ID actual) /\
     CompareWithID (desired (snd (Find c s))) = CompareWithID actual) /\
  ((forall actual, fst (Find c s) <> Ret (Some actual)) ->
   desired (snd (Find c s)) = desired s).
Proof.
  pose proof (Find_desired c s) as H. split.
  - intros actual Hr. rewrite Hr in H. rewrite H.
    split; [reflexivity|]. split; [|reflexivity].
    destruct (Find c s) as [o s'] eqn:E. simpl in Hr. subst o.
    apply Find_inv_listed in E as (i & _ & Hd).
    apply describe_inv_full in Hd
      as (id & userData & s1 & profile & entries & Hid & _ & Hactual & _).
    injection Hactual as ->. exists id.
    destruct (aliased _ _ _); simpl; exact Hid.
  - intros Hno. rewrite H.
    destruct (fst (Find c s)) as [[actual|]|err|p]; try reflexivity.
    by destruct (Hno actual).
Qed.

(** X4. The payload of a returned descriptor is what the user-data query
    answered for the instance found, decoded: absent when the answer has
    no payload, and otherwise the bytes its value decodes to. *)
Theorem Find_returns_decoded_UserData (c : Context) (s s' : Pass) (actual : Instance) :
  Find c s = (Ret (Some actual), s') ->
  exists i out,
    found c s i /\
    awsup.DescribeInstanceAttribute (ContextCloud c) (userDataRequest i)
      = inr (Some out) /\
    match ec2.AttrUserData out with
    | Some value =>
        exists b,
          DecodeString (aws.StringValue (ec2.AttrValue value)) = inr b /\
          UserData actual = Some (fi.NewBytesResource b)
    | None => UserData actual = None
    end.
Proof.
  intros H. apply Find_inv_listed in H as (i & Hfound & Hd).
  apply describe_inv_full in Hd
    as (id & userData & s1 & profile & entries & _ & Hfetch & Hactual & _).
  apply fetchUserData_value in Hfetch as (out & Hout & Hvalue).
  exists i, out. split; [exact Hfound|]. split; [exact Hout|].
  injection Hactual as ->.
  destruct (aliased _ _ _); exact Hvalue.
Qed.

(** ** Discovery cannot tell descriptors of one name and image apart *)

Lemma related_bind {A B} (m1 m2 : M A) (k1 k2 : A -> M B) :
  related m1 m2 -> (forall a, related (k1 a) (k2 a)) ->
  related (m1 ≫= k1) (m2 ≫= k2).
Proof.
  intros Hm Hk s1 s2 Hs. rewrite !bind_run.
  destruct (Hm s1 s2 Hs) as [Ho Ha].
  destruct (m1 s1) as [[a|e|p] t1], (m2 s2) as [[a'|e'|p'] t2];
    simpl in *; try discriminate.
  - injection Ho as ->. apply Hk. exact Ha.
  - injection Ho as ->. split; [reflexivity | exact Ha].
  - injection Ho as ->. split; [reflexivity | exact Ha].
Qed.

Lemma related_get {B} (k1 k2 : Instance -> M B) :
  (forall e1 e2, agree e1 e2 -> related (k1 e1) (k2 e2)) ->
  related (get_desired ≫= k1) (get_desired ≫= k2).
Proof.
  intros Hk s1 s2 Hs. rewrite !bind_run. unfold get_desired.
  apply Hk; exact Hs.
Qed.

Lemma related_ret {A} (a : A) : related (mret a) (mret a).
Proof. intros s1 s2 Hs. split; [reflexivity | exact Hs]. Qed.

Lemma related_fail {A} (err : error) : related (@fail A err) (fail err).
Proof. intros s1 s2 Hs. split; [reflexivity | exact Hs]. Qed.

Lemma related_deref {A} (p : option A) : related (deref p) (deref p).
Proof. intros s1 s2 Hs. unfold deref. destruct p; (split; [reflexivity | exact Hs]). Qed.

Lemma related_index {A} (l : list A) (n : nat) : related (index l n) (index l n).
Proof.
  intros s1 s2 Hs. unfold index. destruct (l !! n); (split; [reflexivity | exact Hs]).
Qed.

Lemma related_log (entry : glog.Entry) : related (log entry) (log entry).
Proof. intros s1 s2 Hs. split; [reflexivity | exact Hs]. Qed.

Lemma related_provider {A} (call : awsup.ProviderCall) (answer : A) :
  related (provider call answer) (provider call answer).
Proof. intros s1 s2 Hs. rewrite !provider_run. split; [reflexivity | exact Hs]. Qed.

Lemma related_set_ID (id : option string) :
  related (modify_desired (set_ID id)) (modify_desired (set_ID id)).
Proof. intros s1 s2 Hs. split; [reflexivity | exact Hs]. Qed.

Lemma related_scanPublicIp (nis : list ec2.InstanceNetworkInterface) (flag : bool) :
  related (scanPublicIp nis flag) (scanPublicIp nis flag).
Proof. intros s1 s2 Hs. rewrite !scanPublicIp_run. split; [reflexivity | exact Hs]. Qed.

Create HintDb rel.
#[local] Hint Resolve related_ret related_fail related_deref related_index
  related_log related_provider related_set_ID related_scanPublicIp : rel.

(** As [frame], for [related]: the two sides are walked together. *)
Ltac rel :=
  repeat first
    [ progress auto with rel
    | apply related_get; intros ? ? ?
    | apply related_bind; [| intros ?]
    | match goal with
      | |- related (match ?x with _ => _ end) (match ?x with _ => _ end) =>
          destruct x
      end
    | progress cbv zeta ].

Lemma related_nameFromIAMARN (arn : option string) :
  related (nameFromIAMARN arn) (nameFromIAMARN arn).
Proof. unfold nameFromIAMARN. rel. Qed.

Lemma related_fetchUserData (cloud : awsup.AWSCloud) (i : ec2.Instance) :
  related (fetchUserData cloud i) (fetchUserData cloud i).
Proof. unfold fetchUserData. rel. Qed.

Lemma related_avoidSpuriousImageChange (cloud : awsup.AWSCloud)
    (e1 e2 actual : Instance) :
  agree e1 e2 ->
  related (avoidSpuriousImageChange cloud e1 actual)
    (avoidSpuriousImageChange cloud e2 actual).
Proof. intros [_ HI]. unfold avoidSpuriousImageChange. rewrite HI. rel. Qed.

#[local] Hint Resolve related_nameFromIAMARN related_fetchUserData
  related_avoidSpuriousImageChange : rel.

Lemma related_describe (cloud : awsup.AWSCloud) (i : ec2.Instance) :
  related (describe cloud i) (describe cloud i).
Proof. unfold describe. rel. Qed.

#[local] Hint Resolve related_describe : rel.

Lemma related_Find (c : Context) : related (Find c) (Find c).
Proof.
  unfold Find. apply related_get. intros e1 e2 [HN HI].
  unfold findRequest. rewrite HN. rel.
Qed.

(** X5. The outcome of [Find] depends on the desired descriptor through
    its name and its image reference alone: on two descriptors that agree
    on both, against the same provider answers, it ends the same way,
    whatever their tags, payload, network placement, flags or identity. *)
Theorem Find_reads_name_and_image_only (c : Context) (s1 s2 : Pass) :
  Name (desired s1) = Name (desired s2) ->
  ImageID (desired s1) = ImageID (desired s2) ->
  fst (Find c s1) = fst (Find c s2).
Proof. intros HN HI. apply (related_Find c s1 s2). split; assumption. Qed.

(** X6. Discovery is stable under its own write: run again on the pass it
    left, against the same provider answers, [Find] ends as it did the
    first time and leaves the desired descriptor as the first run left it. *)
Theorem Find_again (c : Context) (s : Pass) :
  let s' := snd (Find c s) in
  fst (Find c s') = fst (Find c s) /\
  desired (snd (Find c s')) = desired s'.
Proof.
  cbv zeta.
  assert (Hagree : agree (desired (snd (Find c s))) (desired s)).
  { pose proof (preserves_Find c s) as H. unfold sameButID in H.
    rewrite H. split; reflexivity. }
  destruct (related_Find c _ _ Hagree) as [Ho _].
  split; [exact Ho|].
  rewrite (Find_desired c (snd (Find c s))), Ho, (Find_desired c s).
  destruct (fst (Find c s)) as [[actual|]|err|p]; reflexivity.
Qed.

(** ** More on rendering *)

Lemma encodeUserData_encodes (e : Instance) (s : Pass) (userData : option string) :
  encodes e userData -> encodeUserData e s = (Ret userData, s).
Proof.
  unfold encodes, encodeUserData.
  destruct (UserData e) as [resource|]; [|by intros ->].
  intros (d & -> & Hlen & ->).
  assert ((Z.of_nat (length d) >? MaxUserDataSize) = false) as ->
    by (rewrite Z.gtb_ltb; apply Z.ltb_ge; lia).
  reflexivity.
Qed.

Lemma encodeUserData_inv (e : Instance) (s s' : Pass) (userData : option string) :
  encodeUserData e s = (Ret userData, s') -> encodes e userData.
Proof.
  unfold encodes, encodeUserData.
  destruct (UserData e) as [resource|]; [|by intros [= <- _]].
  destruct (fi.ResourceAsBytes resource) as [err|d]; [discriminate|].
  destruct (Z.of_nat (length d) >? MaxUserDataSize) eqn:Hlen; [discriminate|].
  intros [= <- _]. exists d. split; [reflexivity|]. split; [|reflexivity].
  rewrite Z.gtb_ltb in Hlen. apply Z.ltb_ge in Hlen. lia.
Qed.

(** The create path from the create call on. *)
Lemma createInstance_run (t : awsup.AWSAPITarget) (s : Pass) (x : string)
    (image : ec2.Image) (name : string) (subnet : Subnet)
    (devices : list (string * BlockDeviceMapping)) (userData : option string) :
  launchable t (desired s) x image name subnet devices userData ->
  let request := launchRequest (desired s) image subnet devices userData in
  let s2 :=
    after [awsup.CallResolveImage x; awsup.CallRunInstances request]
      [glog.InfoV 2 "Creating Instance with Name:%q" [ArgString name]] s in
  createInstance t s =
  match awsup.RunInstances (awsup.Cloud t) request with
  | inl err => (Fail (Errorf "error creating Instance: %v" [ArgError err]), s2)
  | inr None => (Panic NilDereference, s2)
  | inr (Some response) =>
      match ec2.Instances response with
      | [] => (Panic IndexOutOfRange, s2)
      | first :: _ =>
          (Ret tt,
           {| desired := set_ID (ec2.InstanceId first) (desired s);
              calls := calls s2;
              logged := logged s2 |})
      end
  end.
Proof.
  intros (Hx & Hres & Hname & Hsubnet & Hdev & Henc). cbv zeta.
  unfold createInstance. run. rewrite Hx. run. rewrite Hres. run.
  simpl desired. rewrite Hname. run. simpl desired. rewrite Hsubnet. run.
  rewrite Hdev. run. rewrite (encodeUserData_encodes _ _ _ Henc). run.
  assert (Hreq :
    {| ec2.ReqImageId := ec2.ImageImageId image;
       ec2.ReqInstanceType := InstanceType (desired s);
       ec2.MinCount := aws.Int64 1;
       ec2.MaxCount := aws.Int64 1;
       ec2.ReqKeyName :=
         match SSHKey_ (desired s) with
         | Some key => SSHKeyName key
         | None => None
         end;
       ec2.ReqNetworkInterfaces :=
         [{| ec2.DeviceIndex := aws.Int64 0;
             ec2.AssociatePublicIpAddress := AssociatePublicIP (desired s);
             ec2.SpecSubnetId := SubnetID subnet;
             ec2.SpecPrivateIpAddress := PrivateIPAddress (desired s);
             ec2.Groups := map SecurityGroupID (SecurityGroups (desired s)) |}];
       ec2.BlockDeviceMappings :=
         map (fun entry => ToEC2 (snd entry) (fst entry)) devices;
       ec2.ReqUserData := userData;
       ec2.ReqIamInstanceProfile :=
         match IAMInstanceProfile_ (desired s) with
         | Some profile =>
             Some {| ec2.ProfileName := IAMInstanceProfileName profile |}
         | None => None
         end |} = launchRequest (desired s) image subnet devices userData).
  { unfold launchRequest, launchInterface.
    destruct (SSHKey_ (desired s)), (IAMInstanceProfile_ (desired s)); reflexivity. }
  rewrite Hreq. clear Hreq.
  set (request := launchRequest (desired s) image subnet devices userData).
  destruct (awsup.RunInstances (awsup.Cloud t) request) as [err|[response|]].
  - simpl. unfold after. simpl. by rewrite !app_nil_r, <- !app_assoc.
  - run. destruct (ec2.Instances response) as [|first rest]; simpl.
    + unfold after. simpl. by rewrite !app_nil_r, <- !app_assoc.
    + unfold after. simpl. by rewrite !app_nil_r, <- !app_assoc.
  - simpl. unfold after. simpl. by rewrite !app_nil_r, <- !app_assoc.
Qed.

Lemma reconcileTags_run (t : awsup.AWSAPITarget) (s : Pass) :
  reconcileTags t s =
  match ID (desired s) with
  | None => (Panic NilDereference, s)
  | Some id =>
      (match awsup.AddAWSTags t id (Tags (desired s)) with
       | Some err => Fail err
       | None => Ret tt
       end,
       after [awsup.CallAddAWSTags id (Tags (desired s))] [] s)
  end.
Proof.
  unfold reconcileTags. run.
  destruct (ID (desired s)) as [id|]; [|reflexivity].
  run. by destruct (awsup.AddAWSTags t id (Tags (desired s))).
Qed.

(** X7. On the create path, before any instance is created: without an
    image reference [RenderAWS] fails with the required-field error for
    "ImageID", makes no provider call and leaves the pass as it was; when
    the resolution of the image reference fails it returns that error as
    it is, having made that one call. *)
Theorem RenderAWS_before_create_call (t : awsup.AWSAPITarget)
    (changes : option Instance) (s : Pass) :
  (ImageID (desired s) = None ->
   RenderAWS t None changes s = (Fail (RequiredField "ImageID"), s)) /\
  (forall x err,
     ImageID (desired s) = Some x ->
     awsup.ResolveImage (awsup.Cloud t) x = inl err ->
     RenderAWS t None changes s =
     (Fail err, after [awsup.CallResolveImage x] [] s)).
Proof.
  split.
  - intros Hx. unfold RenderAWS, createInstance. run. rewrite Hx. reflexivity.
  - intros x err Hx Hres. unfold RenderAWS, createInstance. run.
    rewrite Hx. run. rewrite Hres. reflexivity.
Qed.

(** X8. With an actual instance given, [RenderAWS] does nothing but tag:
    it makes the one tagging call, on the identity and with the tags of
    the desired descriptor, returns what that call returns, and leaves the
    descriptor as it was; whatever else differs between desired and actual
    reaches no provider call. Without an identity on the desired
    descriptor it panics before any call. *)
Theorem RenderAWS_update_path (t : awsup.AWSAPITarget) (actual : Instance)
    (changes : option Instance) (s : Pass) :
  match ID (desired s) with
  | Some id =>
      fst (RenderAWS t (Some actual) changes s) =
        match awsup.AddAWSTags t id (Tags (desired s)) with
        | Some err => Fail err
        | None => Ret tt
        end /\
      calls (snd (RenderAWS t (Some actual) changes s)) =
        calls s ++ [awsup.CallAddAWSTags id (Tags (desired s))] /\
      desired (snd (RenderAWS t (Some actual) changes s)) = desired s
  | None => RenderAWS t (Some actual) changes s = (Panic NilDereference, s)
  end.
Proof.
  unfold RenderAWS. run. rewrite reconcileTags_run.
  destruct (ID (desired s)) as [id|]; [|reflexivity].
  repeat split.
Qed.

(** X9. On the create path, when the image reference resolves, the name
    and the subnet are present, the devices are computed, the payload is
    absent or within the ceiling, the create call answers with an instance
    that has an identity and tagging succeeds, [RenderAWS] succeeds: it has
    resolved the image, sent one launch request and then tagged the new
    identity, which the desired descriptor now holds. The launch request
    asks for exactly one instance of the resolved image (not of the
    reference), with one network attachment, and carries the encoded
    payload. *)
Theorem RenderAWS_creates (t : awsup.AWSAPITarget) (changes : option Instance)
    (s : Pass) (x : string) (image : ec2.Image) (name : string) (subnet : Subnet)
    (devices : list (string * BlockDeviceMapping)) (userData : option string)
    (response : ec2.Reservation) (first : ec2.Instance) (rest : list ec2.Instance)
    (id : string) :
  launchable t (desired s) x image name subnet devices userData ->
  let request := launchRequest (desired s) image subnet devices userData in
  awsup.RunInstances (awsup.Cloud t) request = inr (Some response) ->
  ec2.Instances response = first :: rest ->
  ec2.InstanceId first = Some id ->
  awsup.AddAWSTags t id (Tags (desired s)) = None ->
  fst (RenderAWS t None changes s) = Ret tt /\
  desired (snd (RenderAWS t None changes s)) = set_ID (Some id) (desired s) /\
  calls (snd (RenderAWS t None changes s)) =
    calls s ++ [awsup.CallResolveImage x; awsup.CallRunInstances request;
                awsup.CallAddAWSTags id (Tags (desired s))] /\
  ec2.ReqImageId request = ec2.ImageImageId image /\
  ec2.MinCount request = Some 1 /\
  ec2.MaxCount request = Some 1 /\
  ec2.ReqNetworkInterfaces request = [launchInterface (desired s) subnet] /\
  ec2.ReqUserData request = userData.
Proof.
  intros Hl request Hrun Hfirst Hid Htag.
  unfold RenderAWS. rewrite bind_run.
  rewrite (createInstance_run t s x image name subnet devices userData Hl).
  fold request. rewrite Hrun, Hfirst, reconcileTags_run. simpl.
  rewrite Hid, Htag. simpl.
  repeat split. by rewrite <- !app_assoc.
Qed.

(** X10. On the create path, once the launch request is sent: an error of
    the create call comes back wrapped as "error creating Instance", with
    no tagging call made and the descriptor untouched; an answer without
    error but with no reservation, with no instance in it, or with an
    instance that has no identity makes [RenderAWS] panic, with no tagging
    call made. *)
Theorem RenderAWS_create_call_failures (t : awsup.AWSAPITarget)
    (changes : option Instance) (s : Pass) (x : string) (image : ec2.Image)
    (name : string) (subnet : Subnet)
    (devices : list (string * BlockDeviceMapping)) (userData : option string) :
  launchable t (desired s) x image name subnet devices userData ->
  let request := launchRequest (desired s) image subnet devices userData in
  let r := RenderAWS t None changes s in
  let made :=
    calls s ++ [awsup.CallResolveImage x; awsup.CallRunInstances request] in
  match awsup.RunInstances (awsup.Cloud t) request with
  | inl err =>
      fst r = Fail (Errorf "error creating Instance: %v" [ArgError err]) /\
      calls (snd r) = made /\
      desired (snd r) = desired s
  | inr None => fst r = Panic NilDereference /\ calls (snd r) = made
  | inr (Some response) =>
      match ec2.Instances response with
      | [] => fst r = Panic IndexOutOfRange /\ calls (snd r) = made
      | first :: _ =>
          ec2.InstanceId first = None ->
          fst r = Panic NilDereference /\ calls (snd r) = made
      end
  end.
Proof.
  intros Hl request r made. subst r made.
  unfold RenderAWS. rewrite bind_run.
  rewrite (createInstance_run t s x image name subnet devices userData Hl).
  fold request.
  destruct (awsup.RunInstances (awsup.Cloud t) request) as [err|[response|]].
  - simpl. rewrite <- ?app_assoc. repeat split.
  - destruct (ec2.Instances response) as [|first rest].
    + simpl. rewrite <- ?app_assoc. repeat split.
    + intros Hid. rewrite reconcileTags_run. simpl. rewrite Hid. simpl.
      rewrite <- ?app_assoc. repeat split.
  - simpl. rewrite <- ?app_assoc. repeat split.
Qed.

Lemma preserves_encodeUserData (e : Instance) :
  preserves sameButID (encodeUserData e).
Proof. intros s. rewrite encodeUserData_state. reflexivity. Qed.

#[local] Hint Resolve preserves_encodeUserData : frame.

Lemma preserves_createInstance (t : awsup.AWSAPITarget) :
  preserves sameButID (createInstance t).
Proof. unfold createInstance. frame. Qed.

Lemma preserves_reconcileTags (t : awsup.AWSAPITarget) :
  preserves sameButID (reconcileTags t).
Proof. unfold reconcileTags. frame. Qed.

#[local] Hint Resolve preserves_createInstance preserves_reconcileTags : frame.

Lemma preserves_RenderAWS (t : awsup.AWSAPITarget) (a changes : option Instance) :
  preserves sameButID (RenderAWS t a changes).
Proof. unfold RenderAWS. frame. Qed.

(** X11. However [RenderAWS] ends, on either path, of the desired
    descriptor it changes no field but [ID]: the tags it asserts, the name,
    the image reference, the payload and the rest are as before. *)
Theorem RenderAWS_writes_identity_only (t : awsup.AWSAPITarget)
    (a changes : option Instance) (s : Pass) :
  let e := desired s in
  let e' := desired (snd (RenderAWS t a changes s)) in
  UserData e' = UserData e /\
  Subnet_ e' = Subnet_ e /\
  PrivateIPAddress e' = PrivateIPAddress e /\
  Name e' = Name e /\
  Tags e' = Tags e /\
  ImageID e' = ImageID e /\
  InstanceType e' = InstanceType e /\
  SSHKey_ e' = SSHKey_ e /\
  SecurityGroups e' = SecurityGroups e /\
  AssociatePublicIP e' = AssociatePublicIP e /\
  IAMInstanceProfile_ e' = IAMInstanceProfile_ e.
Proof.
  pose proof (preserves_RenderAWS t a changes s) as H. unfold sameButID in H.
  cbv zeta. rewrite H. simpl. repeat split.
Qed.

Lemma createInstance_trace (t : awsup.AWSAPITarget) (s : Pass) :
  exists cs,
    calls (snd (createInstance t s)) = calls s ++ cs /\
    (cs = [] \/
     (exists x, cs = [awsup.CallResolveImage x]) \/
     (exists x request,
        cs = [awsup.CallResolveImage x; awsup.CallRunInstances request])).
Proof.
  unfold createInstance. run.
  destruct (ImageID (desired s)) as [x|].
  2: { exists []. simpl. rewrite app_nil_r. auto. }
  run.
  destruct (awsup.ResolveImage (awsup.Cloud t) x) as [err|image].
  { eexists. simpl. split; [reflexivity|]. eauto. }
  run. simpl desired.
  destruct (Name (desired s)) as [name|].
  2: { eexists. simpl. split; [reflexivity|]. eauto. }
  run.
  destruct image as [image|].
  2: { eexists. simpl. rewrite app_nil_r. split; [reflexivity|]. eauto. }
  run. simpl desired.
  destruct (Subnet_ (desired s)) as [subnet|].
  2: { eexists. simpl. rewrite app_nil_r. split; [reflexivity|]. eauto. }
  run.
  destruct (buildEphemeralDevices (InstanceType (desired s))) as [err|devices].
  { eexists. simpl. rewrite app_nil_r. split; [reflexivity|]. eauto. }
  run.
  match goal with
  | |- context [encodeUserData ?e ?s0] =>
      pose proof (encodeUserData_state e s0) as Hs;
      destruct (encodeUserData e s0) as [[userData|err|p] s2]
  end; simpl in Hs; subst s2.
  2, 3: eexists; simpl; rewrite app_nil_r; split; [reflexivity|]; eauto.
  run.
  match goal with
  | |- context [awsup.CallRunInstances ?r] => set (request := r)
  end.
  assert (Hcalls : forall (o : Outcome unit) d l,
            exists cs,
              calls (snd (o, {| desired := d;
                                calls := ((calls s ++ [awsup.CallResolveImage x]) ++ [])
                                         ++ [awsup.CallRunInstances request];
                                logged := l |})) = calls s ++ cs /\
              (cs = [] \/
               (exists x, cs = [awsup.CallResolveImage x]) \/
               (exists x request,
                  cs = [awsup.CallResolveImage x; awsup.CallRunInstances request]))).
  { intros o d l. eexists. simpl. rewrite app_nil_r, <- app_assoc.
    split; [reflexivity|]. right. right. eauto. }
  destruct (awsup.RunInstances (awsup.Cloud t) request) as [err|[response|]].
  - apply Hcalls.
  - run. destruct (ec2.Instances response !! 0%nat); apply Hcalls.
  - apply Hcalls.
Qed.

(** X12. On the create path, however [RenderAWS] ends, it has made at
    most one create call, and it has made a tagging call only when that
    create call answered with an instance that has an identity, as its
    last call and on that identity with the tags of the desired
    descriptor. *)
Theorem RenderAWS_tags_only_what_it_created (t : awsup.AWSAPITarget)
    (changes : option Instance) (s : Pass) :
  exists cs,
    calls (snd (RenderAWS t None changes s)) = calls s ++ cs /\
    (length (filter (fun call => isRunInstances call = true) cs) <= 1)%nat /\
    (existsb isAddAWSTags cs = false \/
     exists x request response first id,
       cs = [awsup.CallResolveImage x; awsup.CallRunInstances request;
             awsup.CallAddAWSTags id (Tags (desired s))] /\
       awsup.RunInstances (awsup.Cloud t) request = inr (Some response) /\
       ec2.Instances response !! 0%nat = Some first /\
       ec2.InstanceId first = Some id).
Proof.
  unfold RenderAWS. rewrite bind_run.
  destruct (createInstance t s) as [[[]|err|p] s1] eqn:Hc.
  - apply createInstance_inv in Hc
      as (x & request & response & first & Hx & Hrun & Hfirst & Hd & Hcalls).
    rewrite reconcileTags_run, Hd. simpl.
    destruct (ec2.InstanceId first) as [id|] eqn:Hid.
    + exists [awsup.CallResolveImage x; awsup.CallRunInstances request;
              awsup.CallAddAWSTags id (Tags (desired s))].
      simpl. rewrite Hcalls, <- app_assoc. split; [reflexivity|].
      split; [repeat constructor|]. right.
      exists x, request, response, first, id. auto.
    + exists [awsup.CallResolveImage x; awsup.CallRunInstances request].
      simpl. split; [exact Hcalls|]. split; [repeat constructor | by left].
  - destruct (createInstance_trace t s) as (cs & E & Hcs). rewrite Hc in E.
    exists cs. split; [exact E|].
    destruct Hcs as [-> | [[x ->] | (x & request & ->)]]; simpl;
      (split; [repeat constructor | by left]).
  - destruct (createInstance_trace t s) as (cs & E & Hcs). rewrite Hc in E.
    exists cs. split; [exact E|].
    destruct Hcs as [-> | [[x ->] | (x & request & ->)]]; simpl;
      (split; [repeat constructor | by left]).
Qed.

(** ** More on the profile name *)

(** X13. Round trip with the ARN of an instance profile: for a profile
    name without a colon, whatever precedes the last colon of the ARN,
    [nameFromIAMARN] of [pre ++ ":instance-profile/" ++ name] is [name],
    and nothing is logged. *)
Theorem nameFromIAMARN_of_profile_arn (pre name : string) (s : Pass) :
  ~ In ":"%char (list_ascii_of_string name) ->
  nameFromIAMARN (Some (pre +:+ ":instance-profile/" +:+ name)) s =
  (Ret (Some name), s).
Proof.
  intros Hname.
  assert (Hfree : ~ In ":"%char
                    (list_ascii_of_string ("instance-profile/" +:+ name))).
  { rewrite In_append. intros [H|H]; [|exact (Hname H)].
    simpl in H. repeat (destruct H as [H|H]; [discriminate H|]). exact H. }
  destruct (Split_after_sep pre ("instance-profile/" +:+ name) ":"%char Hfree)
    as (t & init & E).
  unfold nameFromIAMARN.
  change (":instance-profile/" +:+ name)
    with (String ":"%char ("instance-profile/" +:+ name)).
  rewrite E, bind_run. unfold index.
  rewrite length_app. simpl length.
  replace (S (length init) + 1 - 1)%nat with (length (t :: init)) by (simpl; lia).
  rewrite list_lookup_middle by reflexivity.
  rewrite HasPrefix_append, TrimPrefix_append. reflexivity.
Qed.

(** ** Discovery, validation and rendering together *)

(** X14. After a discovery that returned a descriptor, rendering against
    that descriptor finds the identity on the desired descriptor: it does
    not panic, it tags the instance discovered with the tags of the
    desired descriptor, and that is its only call. *)
Theorem Find_then_RenderAWS (c : Context) (t : awsup.AWSAPITarget)
    (changes : option Instance) (s s1 : Pass) (actual : Instance) :
  Find c s = (Ret (Some actual), s1) ->
  exists id,
    ID actual = Some id /\
    fst (RenderAWS t (Some actual) changes s1) =
      match awsup.AddAWSTags t id (Tags (desired s)) with
      | Some err => Fail err
      | None => Ret tt
      end /\
    calls (snd (RenderAWS t (Some actual) changes s1)) =
      calls s1 ++ [awsup.CallAddAWSTags id (Tags (desired s))].
Proof.
  intros H.
  pose proof (Find_desired c s) as Hd. rewrite H in Hd. simpl in Hd.
  apply Find_inv_listed in H as (i & _ & Hdesc).
  apply describe_inv_full in Hdesc
    as (id & userData & s2 & profile & entries & Hid & _ & Hactual & _).
  injection Hactual as Hactual.
  assert (HID : ID actual = Some id).
  { rewrite Hactual. destruct (aliased _ _ _); simpl; exact Hid. }
  exists id. split; [exact HID|].
  unfold RenderAWS. run. rewrite reconcileTags_run, Hd, HID. simpl.
  split; reflexivity.
Qed.

(** X15. [TerraformLink] panics exactly on a descriptor without a name;
    a descriptor that [CheckChanges] accepted against an actual instance
    has one, so its link is returned. *)
Theorem TerraformLink_needs_name (s : Pass) :
  (fst (TerraformLink s) = Panic NilDereference <-> Name (desired s) = None) /\
  (forall actual changes,
     CheckChanges (Some actual) (desired s) changes = None ->
     exists name,
       Name (desired s) = Some name /\
       TerraformLink s = (Ret (LiteralSelfLink "aws_instance" name), s)).
Proof.
  rewrite TerraformLink_run. split.
  - destruct (Name (desired s)); simpl; split; congruence.
  - intros actual changes. unfold CheckChanges.
    destruct (Name (desired s)) as [name|]; [|discriminate].
    intros _. exists name. split; reflexivity.
Qed.

End awstasks.

(** ** The properties on the sample data *)

Local Abbreviation sampleFind :=
  (Find sampleFindNameTag sampleMapTags sampleDecodeString).
Local Abbreviation sampleRenderAWS :=
  (RenderAWS string sampleBuildEphemeralDevices sampleToEC2 sampleEncodeToString).

Example Split_arn :
  strings.Split "arn:aws:iam::1234:instance-profile/nodes" ":"%char =
  ["arn"; "aws"; "iam"; ""; "1234"; "instance-profile/nodes"]%string.
Proof. reflexivity. Qed.

Example nameFromIAMARN_profile :
  nameFromIAMARN (Some "arn:aws:iam::1234:instance-profile/nodes")
    (start anonymous) = (Ret (Some "nodes"), start anonymous).
Proof. reflexivity. Qed.

Example nameFromIAMARN_role :
  nameFromIAMARN (Some "arn:aws:iam::1234:role/nodes") (start anonymous) =
  (Ret (Some "role/nodes"),
   after [] [glog.Warningf "Unexpected ARN for instance profile: %q"
               [ArgString "arn:aws:iam::1234:role/nodes"]] (start anonymous)).
Proof. reflexivity. Qed.

Lemma publicNode_found resolve image :
  found (publicListed resolve) (start (node1 image [])) publicNode.
Proof. eexists. split; reflexivity. Defined.

Lemma publicNode_readable resolve :
  readable sampleDecodeString (publicListed resolve) publicNode.
Proof.
  split; [by eexists|]. split; [|reflexivity].
  eexists. split; [reflexivity | exact I].
Defined.

(** Nothing listed gives nil; both nodes listed gives the multiplicity
    error; the public node alone, under the alias "latest", gives its
    descriptor with the image reference "latest". *)
Lemma Find_by_number_of_matches_witness :
  sampleFind noneListed (start (node1 "ami-abc" [])) =
  (Ret None,
   after [awsup.CallDescribeInstances
            (findRequest (ContextCloud noneListed) (node1 "ami-abc" []))] []
     (start (node1 "ami-abc" []))) /\
  fst (sampleFind bothListed (start (node1 "ami-abc" []))) =
  Fail (Errorf "found multiple Instances with name: %s" [ArgString "node-1"]) /\
  exists userData profile s',
    sampleFind (publicListed (resolveTo "ami-123")) (start (node1 "latest" [])) =
    (Ret (Some (set_ImageID (Some "latest")
                  (normalized sampleFindNameTag sampleMapTags publicNode
                     userData profile))), s') /\
    desired s' = set_ID (Some "i-0abc") (node1 "latest" []).
Proof.
  split; [|split].
  - destruct (Find_by_number_of_matches sampleFindNameTag sampleMapTags
                sampleDecodeString noneListed (start (node1 "ami-abc" [])) _ eq_refl)
      as (Hzero & _ & _).
    apply Hzero. reflexivity.
  - destruct (Find_by_number_of_matches sampleFindNameTag sampleMapTags
                sampleDecodeString bothListed (start (node1 "ami-abc" [])) _ eq_refl)
      as (_ & Hmany & _).
    apply Hmany; [repeat constructor | reflexivity].
  - destruct (Find_by_number_of_matches sampleFindNameTag sampleMapTags
                sampleDecodeString (publicListed (resolveTo "ami-123"))
                (start (node1 "latest" [])) _ eq_refl)
      as (_ & _ & Hone).
    destruct (Hone publicNode eq_refl) as (Hreturns & _).
    exact (Hreturns (publicNode_readable _)).
Defined.

(** The claim C1 fails where one instance matches and the user-data query
    is refused: [Find] returns the error and no descriptor. *)
Lemma Find_one_match_query_refused :
  found queryRefused (start (node1 "ami-123" [])) publicNode /\
  fst (sampleFind queryRefused (start (node1 "ami-123" []))) =
  Fail (Errorf "error querying EC2 for user metadata for instance %q: %v"
          [ArgString "i-0abc"; ArgError (CloudError "RequestLimitExceeded")]) /\
  ~ exists actual,
      fst (sampleFind queryRefused (start (node1 "ami-123" []))) = Ret (Some actual).
Proof.
  split; [eexists; split; reflexivity|].
  split; [reflexivity|]. intros [actual H]. discriminate H.
Qed.

(** With the alias "latest" desired and "ami-123" running: resolved to
    "ami-123", the descriptor reports "latest". *)
Lemma Find_image_alias_resolution_witness :
  exists actual s',
    sampleFind (publicListed (resolveTo "ami-123")) (start (node1 "latest" [])) =
    (Ret (Some actual), s') /\
    In (awsup.CallResolveImage "latest") (calls s') /\
    ImageID actual = Some "latest".
Proof.
  exact (Find_image_alias_resolution sampleFindNameTag sampleMapTags
           sampleDecodeString (publicListed (resolveTo "ami-123"))
           (start (node1 "latest" [])) publicNode "latest" "ami-123"
           (publicNode_found _ _) (publicNode_readable _) eq_refl eq_refl
           ltac:(discriminate)).
Defined.

(** The public node is discovered with the flag set. *)
Lemma Find_public_ip_flag_witness :
  exists i,
    found (publicListed resolveFails) (start (node1 "ami-123" [])) i /\
    AssociatePublicIP (publicNodeActual "ami-123") =
    Some (existsb hasPublicIp (ec2.NetworkInterfaces i)) /\
    (AssociatePublicIP (publicNodeActual "ami-123") = Some true <->
     exists ni association ip,
       In ni (ec2.NetworkInterfaces i) /\
       ec2.Association ni = Some association /\
       ec2.PublicIp association = Some ip /\
       ip <> EmptyString).
Proof.
  apply (Find_public_ip_flag sampleFindNameTag sampleMapTags sampleDecodeString
           (publicListed resolveFails) (start (node1 "ami-123" []))
           (snd (sampleFind (publicListed resolveFails) (start (node1 "ami-123" []))))).
  vm_compute. reflexivity.
Defined.

(** An actual instance and a desired descriptor without a name: the
    required-field error. *)
Lemma CheckChanges_requires_name_witness :
  CheckChanges (Some (publicNodeActual "ami-123")) anonymous None =
  Some (RequiredField "Name").
Proof.
  destruct (CheckChanges_requires_name (Some (publicNodeActual "ami-123"))
              anonymous None) as ((_ & Hfails) & _).
  apply Hfails. split; [by eexists | reflexivity].
Defined.

(** Two descriptors of the node "node-1" that differ in image and payload
    have the same link. *)
Lemma TerraformLink_by_name_only_witness :
  fst (TerraformLink sampleLiteralSelfLink (start (node1 "ami-1" []))) =
  fst (TerraformLink sampleLiteralSelfLink (start (node1 "ami-2" [x01]))) /\
  fst (TerraformLink sampleLiteralSelfLink (start (node1 "ami-1" []))) =
  Ret (sampleLiteralSelfLink "aws_instance" "node-1") /\
  snd (TerraformLink sampleLiteralSelfLink (start (node1 "ami-1" []))) =
  start (node1 "ami-1" []) /\
  snd (TerraformLink sampleLiteralSelfLink (start (node1 "ami-2" [x01]))) =
  start (node1 "ami-2" [x01]).
Proof.
  exact (TerraformLink_by_name_only sampleLiteralSelfLink
           (start (node1 "ami-1" [])) (start (node1 "ami-2" [x01])) "node-1"
           eq_refl eq_refl).
Defined.

(** The private node, whose attachment has no association, makes [Find]
    panic. *)
Lemma Find_panics_without_association_witness :
  fst (sampleFind privateListed (start (node1 "ami-123" []))) = Panic NilDereference.
Proof.
  apply (Find_panics_without_association sampleFindNameTag sampleMapTags
           sampleDecodeString privateListed (start (node1 "ami-123" [])) privateNode
           {| ec2.Association := None |} {| ec2.AttrUserData := None |}).
  - eexists. split; reflexivity.
  - by eexists.
  - reflexivity.
  - exact I.
  - left. reflexivity.
  - reflexivity.
Defined.

(** The claim C3 fails on a payload of 16385 bytes: the size error comes,
    but after the provider was asked to resolve the image. *)
Lemma RenderAWS_oversized_after_resolution :
  fst (sampleRenderAWS (liveTarget created) None None
         (start (node1 "ami-abc" oversized))) =
  Fail (Errorf "Instance UserData was too large (%d bytes)" [ArgInt 16385]) /\
  calls (snd (sampleRenderAWS (liveTarget created) None None
                (start (node1 "ami-abc" oversized)))) =
  [awsup.CallResolveImage "ami-abc"] /\
  calls (snd (sampleRenderAWS (liveTarget created) None None
                (start (node1 "ami-abc" oversized)))) <> [].
Proof.
  split; [vm_compute; reflexivity|].
  split; [vm_compute; reflexivity|].
  vm_compute. discriminate.
Qed.

(** On that payload the render never succeeds, fails with the size error,
    and has made the resolution call alone. *)
Lemma RenderAWS_rejects_oversized_UserData_witness :
  (forall u, fst (sampleRenderAWS (liveTarget created) None None
                    (start (node1 "ami-abc" oversized))) <> Ret u) /\
  fst (sampleRenderAWS (liveTarget created) None None
         (start (node1 "ami-abc" oversized))) =
  Fail (Errorf "Instance UserData was too large (%d bytes)"
          [ArgInt (Z.of_nat (length oversized))]) /\
  calls (snd (sampleRenderAWS (liveTarget created) None None
                (start (node1 "ami-abc" oversized)))) =
  calls (start (node1 "ami-abc" oversized)) ++ [awsup.CallResolveImage "ami-abc"].
Proof.
  destruct (RenderAWS_rejects_oversized_UserData string sampleBuildEphemeralDevices
              sampleToEC2 sampleEncodeToString (liveTarget created) None
              (start (node1 "ami-abc" oversized))
              (fi.NewBytesResource oversized) oversized eq_refl eq_refl)
    as (Hnever & _ & Hsize).
  { vm_compute. reflexivity. }
  split; [exact Hnever|].
  exact (Hsize "ami-abc" {| ec2.ImageImageId := Some "ami-123" |} "node-1"
           {| SubnetID := Some "subnet-1" |} [] eq_refl eq_refl eq_refl eq_refl eq_refl).
Defined.

(** Creating the node: resolve, run, then tag the identity returned. *)
Lemma RenderAWS_tags_once_and_last_witness :
  exists id cs,
    calls (snd (sampleRenderAWS (liveTarget created) None None
                  (start (node1 "ami-abc" [])))) =
    calls (start (node1 "ami-abc" [])) ++ cs ++
      [awsup.CallAddAWSTags id (Tags (node1 "ami-abc" []))] /\
    existsb isAddAWSTags cs = false /\
    ID (desired (snd (sampleRenderAWS (liveTarget created) None None
                        (start (node1 "ami-abc" []))))) = Some id /\
    awsup.AddAWSTags (liveTarget created) id (Tags (node1 "ami-abc" [])) = None /\
    exists request response first,
      In (awsup.CallRunInstances request) cs /\
      awsup.RunInstances (awsup.Cloud (liveTarget created)) request
        = inr (Some response) /\
      ec2.Instances response !! 0%nat = Some first /\
      ec2.InstanceId first = Some id.
Proof.
  apply (RenderAWS_tags_once_and_last string sampleBuildEphemeralDevices
           sampleToEC2 sampleEncodeToString (liveTarget created) None None
           (start (node1 "ami-abc" []))).
  vm_compute. reflexivity.
Defined.

(** Discovery of the public node under the alias "latest": the listing,
    the user-data query on "i-0abc", then the resolution of "latest". *)
Lemma Find_calls_on_success_witness :
  exists i,
    found (publicListed (resolveTo "ami-123")) (start (node1 "latest" [])) i /\
    calls (snd (sampleFind (publicListed (resolveTo "ami-123"))
                  (start (node1 "latest" [])))) =
    calls (start (node1 "latest" [])) ++
    [awsup.CallDescribeInstances
       (findRequest (ContextCloud (publicListed (resolveTo "ami-123")))
          (desired (start (node1 "latest" []))));
     awsup.CallDescribeInstanceAttribute (userDataRequest i)] ++
    resolutionCalls (ImageID (desired (start (node1 "latest" [])))) (ec2.ImageId i).
Proof.
  apply (Find_calls_on_success sampleFindNameTag sampleMapTags sampleDecodeString
           (publicListed (resolveTo "ami-123")) (start (node1 "latest" []))
           (snd (sampleFind (publicListed (resolveTo "ami-123"))
                   (start (node1 "latest" []))))
           (publicNodeActual "latest")).
  vm_compute. reflexivity.
Defined.

(** The public node discovered: the desired descriptor gets "i-0abc";
    nothing listed: it stays as it was. *)
Lemma Find_writes_ID_on_success_only_witness :
  (desired (snd (sampleFind (publicListed (resolveTo "ami-123"))
                   (start (node1 "latest" [])))) =
   set_ID (ID (publicNodeActual "latest")) (desired (start (node1 "latest" []))) /\
   is_Some (ID (publicNodeActual "latest")) /\
   CompareWithID (desired (snd (sampleFind (publicListed (resolveTo "ami-123"))
                                  (start (node1 "latest" []))))) =
   CompareWithID (publicNodeActual "latest")) /\
  desired (snd (sampleFind noneListed (start (node1 "latest" [])))) =
  desired (start (node1 "latest" [])).
Proof.
  split.
  - destruct (Find_writes_ID_on_success_only sampleFindNameTag sampleMapTags
                sampleDecodeString (publicListed (resolveTo "ami-123"))
                (start (node1 "latest" []))) as [Hsome _].
    apply (Hsome (publicNodeActual "latest")). vm_compute. reflexivity.
  - destruct (Find_writes_ID_on_success_only sampleFindNameTag sampleMapTags
                sampleDecodeString noneListed (start (node1 "latest" [])))
      as [_ Hnone].
    apply Hnone. intros actual H. vm_compute in H. discriminate H.
Defined.

(** The user-data query answers "boot": the descriptor returned carries
    the bytes of "boot". *)
Lemma Find_returns_decoded_UserData_witness :
  exists actual,
    fst (sampleFind (publicListedWith "boot") (start (node1 "ami-123" []))) =
    Ret (Some actual) /\
    UserData actual = Some (fi.NewBytesResource (list_byte_of_string "boot")) /\
    exists i out,
      found (publicListedWith "boot") (start (node1 "ami-123" [])) i /\
      awsup.DescribeInstanceAttribute (ContextCloud (publicListedWith "boot"))
        (userDataRequest i) = inr (Some out) /\
      match ec2.AttrUserData out with
      | Some value =>
          exists b,
            sampleDecodeString (aws.StringValue (ec2.AttrValue value)) = inr b /\
            UserData actual = Some (fi.NewBytesResource b)
      | None => UserData actual = None
      end.
Proof.
  eexists. split; [vm_compute; reflexivity|]. split; [reflexivity|].
  apply (Find_returns_decoded_UserData sampleFindNameTag sampleMapTags
           sampleDecodeString (publicListedWith "boot") (start (node1 "ami-123" []))
           (snd (sampleFind (publicListedWith "boot") (start (node1 "ami-123" []))))).
  vm_compute. reflexivity.
Defined.

(** Two descriptors of "node-1" with the reference "latest", one of them
    with a payload and an identity: discovery ends the same way on both. *)
Lemma Find_reads_name_and_image_only_witness :
  fst (sampleFind (publicListed (resolveTo "ami-123")) (start (node1 "latest" []))) =
  fst (sampleFind (publicListed (resolveTo "ami-123"))
         (start (set_ID (Some "i-9") (node1 "latest" [x01])))).
Proof.
  exact (Find_reads_name_and_image_only sampleFindNameTag sampleMapTags
           sampleDecodeString (publicListed (resolveTo "ami-123"))
           (start (node1 "latest" []))
           (start (set_ID (Some "i-9") (node1 "latest" [x01]))) eq_refl eq_refl).
Defined.

(** Without an image reference: the required-field error and no call;
    with a resolution that fails: that error after that one call. *)
Lemma RenderAWS_before_create_call_witness :
  sampleRenderAWS (liveTarget created) None None
    (start (set_ImageID None (node1 "ami-abc" []))) =
  (Fail (RequiredField "ImageID"), start (set_ImageID None (node1 "ami-abc" []))) /\
  sampleRenderAWS unresolvedTarget None None (start (node1 "ami-abc" [])) =
  (Fail (CloudError "RequestLimitExceeded"),
   after [awsup.CallResolveImage "ami-abc"] [] (start (node1 "ami-abc" []))).
Proof.
  split.
  - destruct (RenderAWS_before_create_call string sampleBuildEphemeralDevices
                sampleToEC2 sampleEncodeToString (liveTarget created) None
                (start (set_ImageID None (node1 "ami-abc" [])))) as [Hnone _].
    exact (Hnone eq_refl).
  - destruct (RenderAWS_before_create_call string sampleBuildEphemeralDevices
                sampleToEC2 sampleEncodeToString unresolvedTarget None
                (start (node1 "ami-abc" []))) as [_ Hfails].
    exact (Hfails "ami-abc" (CloudError "RequestLimitExceeded") eq_refl eq_refl).
Defined.

Lemma node1_launchable (run : Result (option ec2.Reservation)) (payload : list byte) :
  Z.of_nat (length payload) <= MaxUserDataSize ->
  launchable string sampleBuildEphemeralDevices sampleEncodeToString (liveTarget run)
    (node1 "ami-abc" payload) "ami-abc" {| ec2.ImageImageId := Some "ami-123" |}
    "node-1" {| SubnetID := Some "subnet-1" |} []
    (Some (sampleEncodeToString payload)).
Proof.
  intros Hsize. repeat (split; [reflexivity|]).
  exists payload. split; [reflexivity|]. split; [exact Hsize | reflexivity].
Defined.

Lemma atCeiling_fits : Z.of_nat (length atCeiling) <= MaxUserDataSize.
Proof. vm_compute. discriminate. Defined.

(** Creating "node-1" with a payload of exactly 16384 bytes: resolve, one
    launch request for one instance of "ami-123", then the tags on
    "i-0abc". *)
Lemma RenderAWS_creates_witness :
  let s := start (node1 "ami-abc" atCeiling) in
  let request :=
    launchRequest string sampleToEC2 (desired s)
      {| ec2.ImageImageId := Some "ami-123" |} {| SubnetID := Some "subnet-1" |} []
      (Some (sampleEncodeToString atCeiling)) in
  fst (sampleRenderAWS (liveTarget created) None None s) = Ret tt /\
  desired (snd (sampleRenderAWS (liveTarget created) None None s)) =
    set_ID (Some "i-0abc") (desired s) /\
  calls (snd (sampleRenderAWS (liveTarget created) None None s)) =
    calls s ++ [awsup.CallResolveImage "ami-abc"; awsup.CallRunInstances request;
                awsup.CallAddAWSTags "i-0abc" (Tags (desired s))] /\
  ec2.ReqImageId request = Some "ami-123" /\
  ec2.MinCount request = Some 1 /\
  ec2.MaxCount request = Some 1 /\
  ec2.ReqNetworkInterfaces request =
    [launchInterface (desired s) {| SubnetID := Some "subnet-1" |}] /\
  ec2.ReqUserData request = Some (sampleEncodeToString atCeiling).
Proof.
  exact (RenderAWS_creates string sampleBuildEphemeralDevices sampleToEC2
           sampleEncodeToString (liveTarget created) None
           (start (node1 "ami-abc" atCeiling)) "ami-abc"
           {| ec2.ImageImageId := Some "ami-123" |} "node-1"
           {| SubnetID := Some "subnet-1" |} []
           (Some (sampleEncodeToString atCeiling))
           {| ec2.Instances := [publicNode] |} publicNode [] "i-0abc"
           (node1_launchable created atCeiling atCeiling_fits)
           eq_refl eq_refl eq_refl eq_refl).
Defined.

(** The create call refused: the wrapped error, no tagging call; the
    create call answering with no instance: a panic, no tagging call. *)
Lemma RenderAWS_create_call_failures_witness :
  let s := start (node1 "ami-abc" []) in
  let request :=
    launchRequest string sampleToEC2 (desired s)
      {| ec2.ImageImageId := Some "ami-123" |} {| SubnetID := Some "subnet-1" |} []
      (Some (sampleEncodeToString [])) in
  let made :=
    calls s ++ [awsup.CallResolveImage "ami-abc"; awsup.CallRunInstances request] in
  (fst (sampleRenderAWS (liveTarget noRun) None None s) =
   Fail (Errorf "error creating Instance: %v"
           [ArgError (CloudError "UnauthorizedOperation")]) /\
   calls (snd (sampleRenderAWS (liveTarget noRun) None None s)) = made /\
   desired (snd (sampleRenderAWS (liveTarget noRun) None None s)) = desired s) /\
  (fst (sampleRenderAWS (liveTarget (inr (Some {| ec2.Instances := [] |}))) None None s)
   = Panic IndexOutOfRange /\
   calls (snd (sampleRenderAWS (liveTarget (inr (Some {| ec2.Instances := [] |})))
                 None None s)) = made).
Proof.
  assert (Hfits : Z.of_nat (length (@nil byte)) <= MaxUserDataSize)
    by (vm_compute; discriminate).
  split.
  - exact (RenderAWS_create_call_failures string sampleBuildEphemeralDevices
             sampleToEC2 sampleEncodeToString (liveTarget noRun) None
             (start (node1 "ami-abc" [])) "ami-abc"
             {| ec2.ImageImageId := Some "ami-123" |} "node-1"
             {| SubnetID := Some "subnet-1" |} [] (Some (sampleEncodeToString []))
             (node1_launchable noRun [] Hfits)).
  - exact (RenderAWS_create_call_failures string sampleBuildEphemeralDevices
             sampleToEC2 sampleEncodeToString
             (liveTarget (inr (Some {| ec2.Instances := [] |}))) None
             (start (node1 "ami-abc" [])) "ami-abc"
             {| ec2.ImageImageId := Some "ami-123" |} "node-1"
             {| SubnetID := Some "subnet-1" |} [] (Some (sampleEncodeToString []))
             (node1_launchable _ [] Hfits)).
Defined.

(** The ARN of the profile "nodes". *)
Lemma nameFromIAMARN_of_profile_arn_witness :
  nameFromIAMARN (Some ("arn:aws:iam::1234" +:+ ":instance-profile/" +:+ "nodes"))
    (start anonymous) = (Ret (Some "nodes"), start anonymous).
Proof.
  apply (nameFromIAMARN_of_profile_arn "arn:aws:iam::1234" "nodes" (start anonymous)).
  simpl. intros H. repeat (destruct H as [H|H]; [discriminate H|]). exact H.
Defined.

(** The public node discovered, then rendered against: one tagging call,
    on "i-0abc", with the tags of the desired descriptor. *)
Lemma Find_then_RenderAWS_witness :
  let s := start (node1 "latest" []) in
  let s1 := snd (sampleFind (publicListed (resolveTo "ami-123")) s) in
  exists id,
    ID (publicNodeActual "latest") = Some id /\
    fst (sampleRenderAWS (liveTarget noRun) (Some (publicNodeActual "latest")) None s1) =
      match awsup.AddAWSTags (liveTarget noRun) id (Tags (desired s)) with
      | Some err => Fail err
      | None => Ret tt
      end /\
    calls (snd (sampleRenderAWS (liveTarget noRun) (Some (publicNodeActual "latest"))
                  None s1)) =
      calls s1 ++ [awsup.CallAddAWSTags id (Tags (desired s))].
Proof.
  apply (Find_then_RenderAWS sampleFindNameTag sampleMapTags string
           sampleBuildEphemeralDevices sampleToEC2 sampleDecodeString
           sampleEncodeToString (publicListed (resolveTo "ami-123"))
           (liveTarget noRun) None (start (node1 "latest" []))).
  vm_compute. reflexivity.
Defined.

(** The descriptor of "node-1", accepted against the public node, has the
    link of "node-1"; the nameless descriptor makes the link panic. *)
Lemma TerraformLink_needs_name_witness :
  (exists name,
     Name (desired (start (node1 "ami-123" []))) = Some name /\
     TerraformLink sampleLiteralSelfLink (start (node1 "ami-123" [])) =
     (Ret (sampleLiteralSelfLink "aws_instance" name), start (node1 "ami-123" []))) /\
  fst (TerraformLink sampleLiteralSelfLink (start anonymous)) = Panic NilDereference.
Proof.
  split.
  - destruct (TerraformLink_needs_name sampleLiteralSelfLink
                (start (node1 "ami-123" []))) as [_ Hlink].
    exact (Hlink (publicNodeActual "ami-123") None eq_refl).
  - destruct (TerraformLink_needs_name sampleLiteralSelfLink (start anonymous))
      as [Hpanic _].
    apply Hpanic. reflexivity.
Defined.

(** The ARN of the profile "nodes" gives "nodes" and no log line; the ARN
    of a role gives its last token "role/nodes" and the warning. *)
Lemma nameFromIAMARN_extracts_name_witness :
  nameFromIAMARN (Some "arn:aws:iam::1234:instance-profile/nodes") (start anonymous) =
  (Ret (Some "nodes"), start anonymous) /\
  nameFromIAMARN (Some "arn:aws:iam::1234:role/nodes") (start anonymous) =
  (Ret (Some "role/nodes"),
   after [] [glog.Warningf "Unexpected ARN for instance profile: %q"
               [ArgString "arn:aws:iam::1234:role/nodes"]] (start anonymous)).
Proof.
  split.
  - destruct (nameFromIAMARN_extracts_name
                (Some "arn:aws:iam::1234:instance-profile/nodes") (start anonymous))
      as (_ & Hlast & _).
    destruct (Hlast "instance-profile/nodes") as [Hprofile _].
    { split.
      - simpl. intros H. repeat (destruct H as [H|H]; [discriminate H|]). exact H.
      - right. exists "arn:aws:iam::1234". reflexivity. }
    exact (Hprofile "nodes" eq_refl).
  - destruct (nameFromIAMARN_extracts_name
                (Some "arn:aws:iam::1234:role/nodes") (start anonymous))
      as (_ & Hlast & _).
    destruct (Hlast "role/nodes") as [_ Hother].
    { split.
      - simpl. intros H. repeat (destruct H as [H|H]; [discriminate H|]). exact H.
      - right. exists "arn:aws:iam::1234". reflexivity. }
    apply Hother. intros name H. discriminate H.
Defined.
